(** * FunctionTracer: a shallow embedding of [tracer.py]

    The development follows the source file top to bottom: the
    [FunctionStats] dataclass, the state owned by a [FunctionTracer]
    instance together with the part of the Python runtime it touches
    (module attributes, closure cells, [sys.settrace], the objects that
    dictionaries refer to), then the methods, and finally the properties.

    Conventions.
    - Python [float] durations are exact rationals ([Q]); only [min_time]
      can hold [float('inf')], so it alone has the extended type [pyfloat].
    - Python [int] is [Z].
    - A Python [set] is a duplicate-free list.  The list order stands for
      the order in which CPython iterates the set, which is the hash order
      and need not be the order of insertion; no property below is read as
      saying which of two members of a set comes first.  A [dict] that the
      code iterates is an association list in insertion order; a [dict]
      that is only indexed is a [gmap].
    - Members of target lists are function objects, which are hashable;
      the [TypeError] of [set.add] on an unhashable object is outside this
      model.
    - A method of the tracer is one step.  Trace events that the
      interpreter delivers while [enable] or [update_functions] runs (for
      the Python functions they call) are separate invocations of
      [_trace_function], placed before or after the step.
    - Objects that are mutated in place ([FunctionStats]) live in a heap and
      dictionaries hold references to them. *)

From Stdlib Require Import QArith Lqa.
From stdpp Require Import gmap strings list fin_maps.

(** ** Exceptions and results *)

Inductive exn :=
  | ZeroDivisionError
  | RuntimeError (msg : string)
  | NameError
  | ImportError
  | UserError (tag : positive).

Inductive result (A : Type) :=
  | Ok (a : A)
  | Raise (e : exn).
Arguments Ok {A} a.
Arguments Raise {A} e.

(** ** Floats *)

Inductive pyfloat :=
  | Fin (q : Q)
  | Inf.

(** [x < y] on rationals, as a boolean. *)
Definition Qlt_bool (x y : Q) : bool := negb (Qle_bool y x).

(** [min(m, d)] where [m] may be [float('inf')]: Python returns the first
    argument unless the second is strictly smaller. *)
Definition py_min (m : pyfloat) (d : Q) : pyfloat :=
  match m with
  | Inf => Fin d
  | Fin q => if Qlt_bool d q then Fin d else Fin q
  end.

(** [max(m, d)]: the first argument unless the second is strictly larger. *)
Definition py_max (m d : Q) : Q :=
  if Qlt_bool m d then d else m.

(** [x / n] for a float [x] and an int [n]. *)
Definition truediv (x : Q) (n : Z) : result Q :=
  if (n =? 0)%Z then Raise ZeroDivisionError else Ok (x / inject_Z n)%Q.

(** Order between a possibly infinite float and a rational. *)
Definition pyfloat_le_Q (m : pyfloat) (q : Q) : Prop :=
  match m with
  | Fin x => (x <= q)%Q
  | Inf => False
  end.

(** ** [FunctionStats] *)

Record FunctionStats := mkStats {
  call_count : Z;
  total_time : Q;
  min_time : pyfloat;
  max_time : Q;
}.

(** The dataclass defaults: [FunctionStats()]. *)
Definition FunctionStats0 : FunctionStats :=
  {| call_count := 0; total_time := 0; min_time := Inf; max_time := 0 |}.

(** The [avg_time] property. *)
Definition avg_time (s : FunctionStats) : result Q :=
  if (0 <? call_count s)%Z
  then truediv (total_time s) (call_count s)
  else Ok 0%Q.

(** The four update statements shared by [_trace_function] and
    [wrapped_function]:
      stats.call_count += 1
      stats.total_time += duration
      stats.min_time = min(stats.min_time, duration)
      stats.max_time = max(stats.max_time, duration) *)
Definition update_stats (duration : Q) (s : FunctionStats) : FunctionStats :=
  {| call_count := call_count s + 1;
     total_time := (total_time s + duration)%Q;
     min_time := py_min (min_time s) duration;
     max_time := py_max (max_time s) duration |}.

(** The statistics object after recording the durations [ds], oldest first,
    into a freshly created [FunctionStats()]. *)
Definition stats_of (ds : list Q) : FunctionStats :=
  fold_left (fun s d => update_stats d s) ds FunctionStats0.

(** ** Function objects

    A function object is known to the tracer through its identity (what
    [set] and [dict] hash and compare) and four introspection results. *)

Record Callable := mkCallable {
  fid : positive;                 (* id(func) *)
  __code__ : option positive;     (* identity of func.__code__, if any *)
  is_callable : bool;             (* callable(func) *)
  __module__ : option string;
  __name__ : option string;
}.

Definition same_object (f g : Callable) : bool := (fid f =? fid g)%positive.

(** [set.add] and [in] on a set of function objects; equality is object
    identity.  A new member is put last, which fixes one iteration order
    among those CPython may use. *)
Definition pyset_mem (f : Callable) (s : list Callable) : bool :=
  existsb (same_object f) s.

Definition pyset_add (f : Callable) (s : list Callable) : list Callable :=
  if pyset_mem f s then s else s ++ [f].

(** [k in d] and [d[k] = v] on a dict keyed by function objects. *)
Definition pydict_mem {V} (f : Callable) (d : list (Callable * V)) : bool :=
  existsb (fun kv => same_object f kv.1) d.

Definition pydict_set {V} (f : Callable) (v : V) (d : list (Callable * V))
  : list (Callable * V) :=
  if pydict_mem f d
  then map (fun kv => if same_object f kv.1 then (kv.1, v) else kv) d
  else d ++ [(f, v)].

(** What a module attribute can hold: a plain function object, or a
    [wrapped_function] closure.  The closure's free variable [func] is not
    a value but a cell shared by every closure created in the same run of
    [_setup_builtin_tracing]; [wraps] is the function whose metadata
    [functools.wraps] copied onto the closure when it was created. *)
Inductive pyobj :=
  | Function (f : Callable)
  | Closure (cell : nat) (wraps : Callable).

(** A value for [sys.settrace]. *)
Inductive trace_fn :=
  | TracerHook                    (* self._trace_function *)
  | OtherHook (n : positive).

(** Lines written by [print]. *)
Inductive message :=
  | CouldNotWrap (name : string) (e : exn)
  | CouldNotRestore (name : string) (e : exn)
  | TracingError (e : exn).

(** ** The tracer instance and the runtime around it *)

Record FunctionTracer := mkTracer {
  _enabled : bool;
  _traced_functions : list Callable;
  _decorated_functions : list Callable;
  _stats : gmap positive nat;            (* id(func) -> FunctionStats object *)
  _call_stack : gmap Z (Callable * Q);   (* id(frame) -> (func, start_time) *)
  _original_trace_function : option trace_fn;
  _builtin_functions : list Callable;
  _original_builtins : list (Callable * Callable);
  _wrapped_builtins : list (Callable * pyobj);
}.

Record Runtime := mkRuntime {
  self : FunctionTracer;
  heap : list FunctionStats;                 (* FunctionStats objects, by reference *)
  cells : list (option Callable);            (* closure cells of the variable [func] *)
  modules : gmap string (gmap string pyobj); (* sys.modules and their attributes *)
  sys_trace : option trace_fn;               (* sys.gettrace() *)
  stdout : list message;
}.

(** [FunctionTracer.__init__]. *)
Definition FunctionTracer_init : FunctionTracer :=
  mkTracer false [] [] ∅ ∅ None [] [] [].

Definition Runtime_init (mods : gmap string (gmap string pyobj))
    (tr : option trace_fn) : Runtime :=
  mkRuntime FunctionTracer_init [] [] mods tr [].

(** Field assignments on [self]. *)
Definition set_enabled (b : bool) (t : FunctionTracer) : FunctionTracer :=
  mkTracer b (_traced_functions t) (_decorated_functions t) (_stats t)
    (_call_stack t) (_original_trace_function t) (_builtin_functions t)
    (_original_builtins t) (_wrapped_builtins t).
Definition set_traced_functions (s : list Callable) (t : FunctionTracer) :=
  mkTracer (_enabled t) s (_decorated_functions t) (_stats t)
    (_call_stack t) (_original_trace_function t) (_builtin_functions t)
    (_original_builtins t) (_wrapped_builtins t).
Definition set_decorated_functions (s : list Callable) (t : FunctionTracer) :=
  mkTracer (_enabled t) (_traced_functions t) s (_stats t)
    (_call_stack t) (_original_trace_function t) (_builtin_functions t)
    (_original_builtins t) (_wrapped_builtins t).
Definition set_stats (m : gmap positive nat) (t : FunctionTracer) :=
  mkTracer (_enabled t) (_traced_functions t) (_decorated_functions t) m
    (_call_stack t) (_original_trace_function t) (_builtin_functions t)
    (_original_builtins t) (_wrapped_builtins t).
Definition set_call_stack (m : gmap Z (Callable * Q)) (t : FunctionTracer) :=
  mkTracer (_enabled t) (_traced_functions t) (_decorated_functions t)
    (_stats t) m (_original_trace_function t) (_builtin_functions t)
    (_original_builtins t) (_wrapped_builtins t).
Definition set_original_trace_function (o : option trace_fn) (t : FunctionTracer) :=
  mkTracer (_enabled t) (_traced_functions t) (_decorated_functions t)
    (_stats t) (_call_stack t) o (_builtin_functions t)
    (_original_builtins t) (_wrapped_builtins t).
Definition set_builtin_functions (s : list Callable) (t : FunctionTracer) :=
  mkTracer (_enabled t) (_traced_functions t) (_decorated_functions t)
    (_stats t) (_call_stack t) (_original_trace_function t) s
    (_original_builtins t) (_wrapped_builtins t).
Definition set_original_builtins (d : list (Callable * Callable)) (t : FunctionTracer) :=
  mkTracer (_enabled t) (_traced_functions t) (_decorated_functions t)
    (_stats t) (_call_stack t) (_original_trace_function t)
    (_builtin_functions t) d (_wrapped_builtins t).
Definition set_wrapped_builtins (d : list (Callable * pyobj)) (t : FunctionTracer) :=
  mkTracer (_enabled t) (_traced_functions t) (_decorated_functions t)
    (_stats t) (_call_stack t) (_original_trace_function t)
    (_builtin_functions t) (_original_builtins t) d.

(** Updates of the runtime. *)
Definition on_self (f : FunctionTracer -> FunctionTracer) (w : Runtime) : Runtime :=
  mkRuntime (f (self w)) (heap w) (cells w) (modules w) (sys_trace w) (stdout w).
Definition set_heap (h : list FunctionStats) (w : Runtime) : Runtime :=
  mkRuntime (self w) h (cells w) (modules w) (sys_trace w) (stdout w).
Definition set_cells (c : list (option Callable)) (w : Runtime) : Runtime :=
  mkRuntime (self w) (heap w) c (modules w) (sys_trace w) (stdout w).
Definition set_modules (m : gmap string (gmap string pyobj)) (w : Runtime) : Runtime :=
  mkRuntime (self w) (heap w) (cells w) m (sys_trace w) (stdout w).
Definition settrace (o : option trace_fn) (w : Runtime) : Runtime :=
  mkRuntime (self w) (heap w) (cells w) (modules w) o (stdout w).
Definition print (msg : message) (w : Runtime) : Runtime :=
  mkRuntime (self w) (heap w) (cells w) (modules w) (sys_trace w) (stdout w ++ [msg]).

(** [getattr(module, name)] and [setattr(importlib.import_module(m), n, v)];
    the import raises when the module does not exist. *)
Definition getattr (m n : string) (w : Runtime) : option pyobj :=
  modules w !! m ≫= fun ns => ns !! n.

Definition import_setattr (m n : string) (v : pyobj) (w : Runtime) : result Runtime :=
  match modules w !! m with
  | Some ns => Ok (set_modules (<[m := <[n := v]> ns]> (modules w)) w)
  | None => Raise ImportError
  end.

(** ** Methods of [FunctionTracer] *)

(** [_is_builtin_function]: no [__code__] attribute, and callable. *)
Definition _is_builtin_function (func : Callable) : bool :=
  negb (bool_decide (is_Some (__code__ func))) && is_callable func.

(** One iteration of the loop of [_setup_builtin_tracing].  [c] is the cell
    of the loop variable [func]: the [for] statement assigns it before the
    body runs, also on the iterations that [continue]. *)
Definition setup_one (c : nat) (w : Runtime) (func : Callable) : Runtime :=
  let w := set_cells (<[c := Some func]> (cells w)) w in
  if pydict_mem func (_wrapped_builtins (self w)) then w
  else
    let w := on_self (fun t =>
               set_original_builtins (pydict_set func func (_original_builtins t)) t) w in
    let wrapped_function := Closure c func in
    let w := on_self (fun t =>
               set_wrapped_builtins
                 (pydict_set func wrapped_function (_wrapped_builtins t)) t) w in
    match __module__ func, __name__ func with
    | Some module_name, Some func_name =>
        match import_setattr module_name func_name wrapped_function w with
        | Ok w' => w'
        | Raise e => print (CouldNotWrap func_name e) w
        end
    | _, _ => w
    end.

(** [_setup_builtin_tracing].  Each run has its own local variable [func],
    hence a new cell, unbound until the first iteration. *)
Definition _setup_builtin_tracing (w : Runtime) : Runtime :=
  let c := length (cells w) in
  let w := set_cells (cells w ++ [None]) w in
  fold_left (setup_one c) (_builtin_functions (self w)) w.

(** One iteration of the loop of [_restore_builtin_functions]. *)
Definition restore_one (w : Runtime) (item : Callable * Callable) : Runtime :=
  let '(func, original) := item in
  match __module__ func, __name__ func with
  | Some module_name, Some func_name =>
      match import_setattr module_name func_name (Function original) w with
      | Ok w' => w'
      | Raise e => print (CouldNotRestore func_name e) w
      end
  | _, _ => w
  end.

(** [_restore_builtin_functions]. *)
Definition _restore_builtin_functions (w : Runtime) : Runtime :=
  let w := fold_left restore_one (_original_builtins (self w)) w in
  let w := on_self (set_builtin_functions []) w in
  let w := on_self (set_original_builtins []) w in
  on_self (set_wrapped_builtins []) w.

(** The body shared by the two [for func in functions] loops, for a
    hashable [func]. *)
Definition classify (w : Runtime) (func : Callable) : Runtime :=
  if _is_builtin_function func
  then on_self (fun t => set_builtin_functions (pyset_add func (_builtin_functions t)) t) w
  else on_self (fun t => set_traced_functions (pyset_add func (_traced_functions t)) t) w.

(** [update_functions]. *)
Definition update_functions (functions : list Callable) (w : Runtime)
  : result unit * Runtime :=
  if negb (_enabled (self w))
  then (Raise (RuntimeError "Tracing is not enabled"), w)
  else
    let w := _restore_builtin_functions w in
    let w := on_self (fun t => set_traced_functions (_decorated_functions t) t) w in
    let w := on_self (set_builtin_functions []) w in
    let w := fold_left classify functions w in
    let w := _setup_builtin_tracing w in
    (Ok tt, w).

(** Truth value of the optional list argument in [if functions:]. *)
Definition truthy (functions : option (list Callable)) : bool :=
  match functions with
  | Some (_ :: _) => true
  | _ => false
  end.

(** [enable]. *)
Definition enable (functions : option (list Callable)) (w : Runtime)
  : result unit * Runtime :=
  if _enabled (self w)
  then match functions with
       | Some fs => update_functions fs w
       | None => (Ok tt, w)
       end
  else
    let w := on_self (fun t => set_traced_functions (_decorated_functions t) t) w in
    let w := if truthy functions
             then fold_left classify (default [] functions) w
             else w in
    let w := on_self (set_original_trace_function (sys_trace w)) w in
    let w := settrace (Some TracerHook) w in
    let w := _setup_builtin_tracing w in
    let w := on_self (set_enabled true) w in
    (Ok tt, w).

(** [dict(self._stats)]: a new dictionary holding the same references. *)
Definition get_results (w : Runtime) : gmap positive nat := _stats (self w).

(** [disable]. *)
Definition disable (w : Runtime) : gmap positive nat * Runtime :=
  if negb (_enabled (self w))
  then (_stats (self w), w)
  else
    let w := settrace (_original_trace_function (self w)) w in
    let w := _restore_builtin_functions w in
    let w := on_self (set_enabled false) w in
    let w := on_self (set_call_stack ∅) w in
    (_stats (self w), w).

(** What a caller holding the dictionary [snap] reads from it once the
    runtime has reached [w]: the current contents of the objects that the
    dictionary refers to. *)
Definition read_snapshot (w : Runtime) (snap : gmap positive nat)
  : gmap positive FunctionStats :=
  omap (fun l => heap w !! l) snap.

(** [self._stats[func]] on the [defaultdict]: a missing key is first bound
    to a new [FunctionStats()]. *)
Definition stats_getitem (func : Callable) (w : Runtime) : nat * Runtime :=
  match _stats (self w) !! fid func with
  | Some l => (l, w)
  | None =>
      let l := length (heap w) in
      let w := set_heap (heap w ++ [FunctionStats0]) w in
      (l, on_self (fun t => set_stats (<[fid func := l]> (_stats t)) t) w)
  end.

(** The "update stats" block: fetch the object, then mutate it in place.
    [min] and [max] are the builtins; the block as a whole is one step,
    which is right as long as [builtins.min] and [builtins.max] are not
    themselves rebound to closures of the tracer. *)
Definition record_call (func : Callable) (duration : Q) (w : Runtime) : Runtime :=
  let '(l, w) := stats_getitem func w in
  set_heap (alter (update_stats duration) l (heap w)) w.

(** Frames and trace events. *)
Record frame := mkFrame {
  frame_id : Z;        (* id(frame) *)
  f_code : positive;   (* identity of frame.f_code *)
}.

Inductive event := Call | Return | Line | Exception | Opcode.

(** The [for traced_func in self._traced_functions] search: the first
    traced function whose code object is the frame's. *)
Definition find_traced (code : positive) (traced : list Callable) : option Callable :=
  List.find (fun traced_func =>
               match __code__ traced_func with
               | Some c => (c =? code)%positive
               | None => false
               end) traced.

(** [_trace_function(frame, event, arg)]; [now] is what
    [time.perf_counter()] returns during this invocation.  None of the
    operations in the [try] block can raise in this model, so the handler
    that prints "Tracing error" is never entered. *)
Definition _trace_function (fr : frame) (ev : event) (now : Q) (w : Runtime)
  : option trace_fn * Runtime :=
  match ev with
  | Call =>
      match find_traced (f_code fr) (_traced_functions (self w)) with
      | Some func =>
          let thread_id := frame_id fr in
          (Some TracerHook,
           on_self (fun t => set_call_stack
                               (<[thread_id := (func, now)]> (_call_stack t)) t) w)
      | None => (None, w)
      end
  | Return =>
      let thread_id := frame_id fr in
      match _call_stack (self w) !! thread_id with
      | Some (func, start_time) =>
          let w := on_self (fun t => set_call_stack
                                       (delete thread_id (_call_stack t)) t) w in
          let duration := (now - start_time)%Q in
          (None, record_call func duration w)
      | None => (None, w)
      end
  | _ => (None, w)
  end.

(** [wrapped_function], the closure body, for a closure over cell [c].
    [call g] is the outcome of running the function object [g] on the given
    arguments; [t0] and [t1] are the two [time.perf_counter()] readings.
    A raising [func(...)] leaves the function at that statement.  The
    clock and the builtins [min] and [max] are taken as they are in a
    process where they are not wrapped themselves: a closure installed
    for [time.perf_counter], [min] or [max] would re-enter itself. *)
Definition wrapped_function (c : nat) (call : Callable -> result Z) (t0 t1 : Q)
    (w : Runtime) : result Z * Runtime :=
  match cells w !! c with
  | Some (Some func) =>
      if negb (_enabled (self w)) then (call func, w)
      else
        let start_time := t0 in
        match call func with
        | Raise e => (Raise e, w)
        | Ok result =>
            let duration := (t1 - start_time)%Q in
            (Ok result, record_call func duration w)
        end
  | _ => (Raise NameError, w)
  end.

(** Calling whatever [module.name] currently resolves to. *)
Definition call_attr (m n : string) (call : Callable -> result Z) (t0 t1 : Q)
    (w : Runtime) : result Z * Runtime :=
  match getattr m n w with
  | Some (Function g) => (call g, w)
  | Some (Closure c _) => wrapped_function c call t0 t1 w
  | None => (Raise NameError, w)
  end.

(** The [trace] decorator's effect on the instance: [function] joins
    [_decorated_functions]. *)
Definition trace (function : Callable) (w : Runtime) : Runtime :=
  on_self (fun t => set_decorated_functions
                      (pyset_add function (_decorated_functions t)) t) w.

(** ** Programs using the tracer

    A client program is a sequence of operations on one runtime: calls of
    the public methods, trace events delivered by the interpreter, calls
    through module attributes or through a closure obtained earlier, and
    attribute assignments made by other code. *)

Inductive op :=
  | OpEnable (functions : option (list Callable))
  | OpDisable
  | OpUpdate (functions : list Callable)
  | OpGetResults
  | OpDecorate (function : Callable)
  | OpTrace (fr : frame) (ev : event) (now : Q)
  | OpCallAttr (m n : string) (call : Callable -> result Z) (t0 t1 : Q)
  | OpCallClosure (c : nat) (call : Callable -> result Z) (t0 t1 : Q)
  | OpSetattr (m n : string) (v : pyobj).

Definition step (w : Runtime) (o : op) : Runtime :=
  match o with
  | OpEnable functions => (enable functions w).2
  | OpDisable => (disable w).2
  | OpUpdate functions => (update_functions functions w).2
  | OpGetResults => w
  | OpDecorate function => trace function w
  | OpTrace fr ev now => (_trace_function fr ev now w).2
  | OpCallAttr m n call t0 t1 => (call_attr m n call t0 t1 w).2
  | OpCallClosure c call t0 t1 => (wrapped_function c call t0 t1 w).2
  | OpSetattr m n v =>
      match import_setattr m n v w with
      | Ok w' => w'
      | Raise _ => w
      end
  end.

Definition run (ops : list op) (w : Runtime) : Runtime := fold_left step ops w.

(** ** Vocabulary of the properties *)

(** What every sequence of recordings maintains: the count is not
    negative, the total is at most [count] times the maximum, and at
    least [count] times the minimum once there is one. *)
Definition stats_inv (s : FunctionStats) : Prop :=
  (0 <= call_count s)%Z /\
  (total_time s <= max_time s * inject_Z (call_count s))%Q /\
  match min_time s with
  | Inf => call_count s = 0%Z /\ (total_time s == 0)%Q
  | Fin m => (0 < call_count s)%Z /\ (m * inject_Z (call_count s) <= total_time s)%Q
  end.

(** A statistics object that has been through at least one recording. *)
Definition recorded (s : FunctionStats) : Prop :=
  stats_inv s /\ (1 <= call_count s)%Z.

(** Every object on the heap has been through a recording. *)
Definition heap_recorded (w : Runtime) : Prop := Forall recorded (heap w).

(** The statistics store before and after are the same dictionary over the
    same objects. *)
Definition same_store (w w' : Runtime) : Prop :=
  _stats (self w') = _stats (self w) /\ heap w' = heap w.

(** Every reference held by [_stats] points to a live object, and distinct
    keys refer to distinct objects. *)
Definition stats_wf (w : Runtime) : Prop :=
  (forall k l, _stats (self w) !! k = Some l -> l < length (heap w)) /\
  (forall k1 k2 l, _stats (self w) !! k1 = Some l ->
                   _stats (self w) !! k2 = Some l -> k1 = k2).

(** The entry of [func] in the store, and the object that
    [self._stats[func]] evaluates to (a new one when there is no entry). *)
Definition lookup_stats (func : Callable) (w : Runtime) : option FunctionStats :=
  _stats (self w) !! fid func ≫= fun l => heap w !! l.

Definition stats_or_new (func : Callable) (w : Runtime) : FunctionStats :=
  default FunctionStats0 (lookup_stats func w).

(** The saved originals of all substitution records for the binding
    location [m.n] agree. *)
Definition one_original (m n : string) (original : Callable)
    (items : list (Callable * Callable)) : Prop :=
  forall func o, (func, o) ∈ items ->
    __module__ func = Some m -> __name__ func = Some n -> o = original.

(** One activation of a traced function: the identity of its frame and the
    clock readings at its call and return events. *)
Record activation := mkActivation {
  act_frame : Z;
  act_enter : Q;
  act_exit : Q;
}.

Definition act_duration (a : activation) : Q := (act_exit a - act_enter a)%Q.

(** The trace events of a chain of self-calls of the function with code
    object [code], outermost activation first: each activation is called,
    runs a line, makes the next self-call, runs another line and returns. *)
Fixpoint chain_events (code : positive) (acts : list activation)
  : list (frame * event * Q) :=
  match acts with
  | [] => []
  | a :: inner =>
      let fr := mkFrame (act_frame a) code in
      (fr, Call, act_enter a) :: (fr, Line, act_enter a)
        :: chain_events code inner
        ++ [(fr, Line, act_exit a); (fr, Return, act_exit a)]
  end.

Definition deliver (w : Runtime) (e : frame * event * Q) : Runtime :=
  (_trace_function e.1.1 e.1.2 e.2 w).2.

Definition run_events (es : list (frame * event * Q)) (w : Runtime) : Runtime :=
  fold_left deliver es w.

(** ** A concrete program *)

Definition time_sleep : Callable :=
  mkCallable 1 None true (Some "time") (Some "sleep").
Definition time_ctime : Callable :=
  mkCallable 2 None true (Some "time") (Some "ctime").
Definition patched_sleep : Callable :=
  mkCallable 3 (Some 300%positive) true (Some "thirdparty") (Some "sleep").
Definition fact : Callable :=
  mkCallable 10 (Some 100%positive) true (Some "__main__") (Some "fact").

Definition time_module : gmap string pyobj :=
  <["sleep" := Function time_sleep]> (<["ctime" := Function time_ctime]> ∅).

Definition sys_modules : gmap string (gmap string pyobj) :=
  <["time" := time_module]> ∅.

(** A new tracer in a process where no trace function is installed. *)
Definition fresh : Runtime := Runtime_init sys_modules None.

(** Every function returns its own identity, so results tell callees apart. *)
Definition returns_own_id (g : Callable) : result Z := Ok (Z.pos (fid g)).

(** [time.sleep] fails, every other function returns its identity. *)
Definition sleep_raises (g : Callable) : result Z :=
  if same_object g time_sleep then Raise (UserError 7) else Ok (Z.pos (fid g)).

(** One traced call of [fact] between clock readings [t0] and [t1]. *)
Definition call_fact (frame_no : Z) (t0 t1 : Q) : list op :=
  [OpTrace (mkFrame frame_no 100) Call t0; OpTrace (mkFrame frame_no 100) Return t1].

(** [time.sleep] is wrapped, then rebound by other code. *)
Definition rebound_session : Runtime :=
  run [OpEnable (Some [time_sleep]);
       OpSetattr "time" "sleep" (Function patched_sleep)] fresh.

(** A finished session: [fact] was traced once, for two seconds. *)
Definition after_session : Runtime :=
  run (OpEnable (Some [fact]) :: call_fact 7 1 3 ++ [OpDisable]) fresh.

(** A running session in which [fact] has been called once. *)
Definition mid_session : Runtime :=
  run (OpEnable (Some [fact]) :: call_fact 7 1 3) fresh.

(** A running session tracing [fact], before any call. *)
Definition tracing_fact : Runtime := (enable (Some [fact]) fresh).2.

(** [fact(3)]: three nested activations in frames 11, 12 and 13. *)
Definition three_deep : list activation :=
  [mkActivation 11 0 5; mkActivation 12 1 4; mkActivation 13 2 3].

(** ** Further vocabulary *)

(** The sum of a list of durations. *)
Definition Qsum (ds : list Q) : Q := foldr Qplus 0%Q ds.

(** [s.add(f)] for each [f] of a list, in order. *)
Definition add_all (fs : list Callable) (s : list Callable) : list Callable :=
  fold_left (fun s f => pyset_add f s) fs s.

(** The tracer with its two dictionaries of substitution records emptied:
    two tracers with the same image differ in those dictionaries only. *)
Definition erase_records (t : FunctionTracer) : FunctionTracer :=
  set_wrapped_builtins [] (set_original_builtins [] t).

(** The substitution records are exactly the opaque targets: both
    dictionaries have the targets as keys, in order and without
    repetition, each saved original is the target itself, each target is
    opaque, and a disabled tracer has none. *)
Definition records_inv (w : Runtime) : Prop :=
  map fst (_original_builtins (self w)) = _builtin_functions (self w) /\
  map fst (_wrapped_builtins (self w)) = _builtin_functions (self w) /\
  (forall func o, (func, o) ∈ _original_builtins (self w) -> o = func) /\
  NoDup (map fid (_builtin_functions (self w))) /\
  Forall (fun f => _is_builtin_function f = true) (_builtin_functions (self w)) /\
  (_enabled (self w) = false -> _builtin_functions (self w) = []).

(** Two runtimes agree on everything that [enable], [disable] and
    [update_functions] decide: the flag, the target sets, the substitution
    records, the closure cells and the trace functions. *)
Definition same_control (w w' : Runtime) : Prop :=
  _enabled (self w') = _enabled (self w) /\
  _traced_functions (self w') = _traced_functions (self w) /\
  _builtin_functions (self w') = _builtin_functions (self w) /\
  _original_builtins (self w') = _original_builtins (self w) /\
  _wrapped_builtins (self w') = _wrapped_builtins (self w) /\
  _original_trace_function (self w') = _original_trace_function (self w) /\
  sys_trace w' = sys_trace w /\
  cells w' = cells w.

(** Operations other than the three lifecycle methods. *)
Definition is_lifecycle (o : op) : bool :=
  match o with
  | OpEnable _ | OpDisable | OpUpdate _ => true
  | _ => false
  end.

Definition is_disable (o : op) : bool :=
  match o with
  | OpDisable => true
  | _ => false
  end.

(** A session that is running with [fact] in flight: its call event has
    been seen, its return event has not. *)
Definition fact_in_flight : Runtime :=
  run [OpEnable (Some [fact]); OpTrace (mkFrame 7 100) Call 1] fresh.

(** An ordinary function that is not a target. *)
Definition helper : Callable :=
  mkCallable 11 (Some 110%positive) true (Some "__main__") (Some "helper").

(** The store only grows from [w] to [w']: every key keeps its object, and
    no object's [call_count] goes down. *)
Definition store_grows (w w' : Runtime) : Prop :=
  (forall k l, _stats (self w) !! k = Some l -> _stats (self w') !! k = Some l) /\
  (forall l s, heap w !! l = Some s ->
     exists s', heap w' !! l = Some s' /\ (call_count s <= call_count s')%Z).

(** The trace events of calls made one after the other, each returning
    before the next starts. *)
Fixpoint sequential_events (code : positive) (acts : list activation)
  : list (frame * event * Q) :=
  match acts with
  | [] => []
  | a :: later =>
      let fr := mkFrame (act_frame a) code in
      (fr, Call, act_enter a) :: (fr, Return, act_exit a)
        :: sequential_events code later
  end.

(** Three calls in a row; the first and the last happen to get the same
    frame identity. *)
Definition three_in_a_row : list activation :=
  [mkActivation 11 0 2; mkActivation 12 3 4; mkActivation 11 5 8].

(** [f] is what its own [__module__.__name__] resolves to. *)
Definition bound_at_home (w : Runtime) (f : Callable) : Prop :=
  forall m n, __module__ f = Some m -> __name__ f = Some n ->
              getattr m n w = Some (Function f).

(** [f] has the binding location [m.n]. *)
Definition located (m n : string) (f : Callable) : Prop :=
  __module__ f = Some m /\ __name__ f = Some n.

(** Relative to [base], the runtime [w'] can import the same modules, has
    printed nothing more, and its module attributes differ at most at the
    binding locations of [keys]. *)
Definition tracks (base : Runtime) (keys : list Callable) (w' : Runtime) : Prop :=
  (forall m, is_Some (modules w' !! m) <-> is_Some (modules base !! m)) /\
  stdout w' = stdout base /\
  (forall m n, getattr m n w' = getattr m n base \/
               exists f, In f keys /\ located m n f).

(** ** The name column of [format_results] *)

(** [k] blanks. *)
Fixpoint spaces (k : nat) : string :=
  match k with
  | 0 => EmptyString
  | S k' => " " +:+ spaces k'
  end.

(** The format specification [:<width] applied to a string: padded with
    blanks on the right up to [width], never cut. *)
Definition ljust (width : nat) (s : string) : string :=
  s +:+ spaces (width - String.length s).

(** The slice [s[-k:]]. *)
Definition last_chars (k : nat) (s : string) : string :=
  String.substring (String.length s - k) k s.

(** The two statements that shorten an overlong name. *)
Definition truncate_name (func_name : string) : string :=
  if 38 <? String.length func_name
  then "..." +:+ last_chars 35 func_name
  else func_name.

(** The readable name chosen in the loop of [format_results]; [str] is
    Python's [str(func)]. *)
Definition display_name (str : Callable -> string) (func : Callable) : string :=
  if is_callable func then
    match __name__ func with
    | Some name =>
        match __module__ func with
        | Some module =>
            if negb (String.eqb module "__main__")
            then module +:+ "." +:+ name
            else name
        | None => name
        end
    | None => str func
    end
  else str func.

(** The first column of a result line: the name under [:<40]. *)
Definition name_column (str : Callable -> string) (func : Callable) : string :=
  ljust 40 (truncate_name (display_name str func)).

(** A callable without [__code__] whose module does not exist. *)
Definition ghost_function : Callable :=
  mkCallable 4 None true (Some "ghost") (Some "run").

(** Two function objects made from one [def] (two closures, say): distinct
    objects sharing one code object. *)
Definition shared_a : Callable :=
  mkCallable 20 (Some 200%positive) true (Some "__main__") (Some "inner").
Definition shared_b : Callable :=
  mkCallable 21 (Some 200%positive) true (Some "__main__") (Some "inner").

(** A chain of two self-calls in frames 31 and 32. *)
Definition two_deep : list activation :=
  [mkActivation 31 10 15; mkActivation 32 11 14].

(** What [wrapped_function] itself calls through a module attribute:
    [time.perf_counter] and the builtins [min] and [max]. *)
Definition wrapper_callees : list (string * string) :=
  [("time", "perf_counter"); ("builtins", "min"); ("builtins", "max")].

(** None of the trace events [evs] belongs to a traced function of [w]:
    no frame's code object is that of a traced function. *)
Definition no_target_among (evs : list (frame * event * Q)) (w : Runtime) : Prop :=
  Forall (fun e => find_traced (f_code e.1.1) (_traced_functions (self w)) = None) evs.

(** None of the trace events [evs] belongs to a frame that has a pending
    entry in the call stack of [w]. *)
Definition not_pending (evs : list (frame * event * Q)) (w : Runtime) : Prop :=
  Forall (fun e => _call_stack (self w) !! frame_id e.1.1 = None) evs.

(** The events of one call of a function that is not a target, such as
    [importlib.import_module] called by the tracer: frame 50, code 900. *)
Definition import_module_events : list (frame * event * Q) :=
  [(mkFrame 50 900, Call, 4%Q); (mkFrame 50 900, Line, 4%Q);
   (mkFrame 50 900, Return, 5%Q)].

(** * Properties *)

(** ** [FunctionStats] arithmetic *)

Section StatsArithmetic.
Local Open Scope Q_scope.

Lemma Qlt_bool_true x y : Qlt_bool x y = true -> x < y.
Proof.
  unfold Qlt_bool. intros H. apply Qnot_le_lt. intros Hle.
  apply Qle_bool_iff in Hle. rewrite Hle in H. discriminate.
Qed.

Lemma Qlt_bool_false x y : Qlt_bool x y = false -> y <= x.
Proof.
  unfold Qlt_bool. intros H. apply Qle_bool_iff.
  destruct (Qle_bool y x); [reflexivity | discriminate].
Qed.

Lemma py_max_ub m d : m <= py_max m d /\ d <= py_max m d.
Proof.
  unfold py_max. destruct (Qlt_bool m d) eqn:E.
  - apply Qlt_bool_true in E. split; lra.
  - apply Qlt_bool_false in E. split; lra.
Qed.

Lemma py_min_lb q d : exists q', py_min (Fin q) d = Fin q' /\ q' <= q /\ q' <= d.
Proof.
  simpl. destruct (Qlt_bool d q) eqn:E; eexists; (split; [reflexivity|]).
  - apply Qlt_bool_true in E. split; lra.
  - apply Qlt_bool_false in E. split; lra.
Qed.

Lemma stats_inv_init : stats_inv FunctionStats0.
Proof. unfold stats_inv; simpl. repeat split; try lia; try lra. Qed.

Lemma stats_inv_update d s : stats_inv s -> stats_inv (update_stats d s).
Proof.
  intros (Hn & Hmax & Hmin). unfold stats_inv; simpl.
  assert (Hq : 0 <= inject_Z (call_count s)).
  { change 0 with (inject_Z 0). rewrite <- Zle_Qle. exact Hn. }
  rewrite inject_Z_plus. change (inject_Z 1) with 1.
  destruct (py_max_ub (max_time s) d) as [Hm1 Hm2].
  split; [lia|]. split.
  - assert (max_time s * inject_Z (call_count s)
            <= py_max (max_time s) d * inject_Z (call_count s)).
    { apply Qmult_le_compat_r; assumption. }
    lra.
  - destruct (min_time s) as [m|].
    + destruct Hmin as [Hpos Hmin].
      destruct (py_min_lb m d) as (q' & -> & Hq1 & Hq2).
      split; [lia|].
      assert (q' * inject_Z (call_count s) <= m * inject_Z (call_count s)).
      { apply Qmult_le_compat_r; assumption. }
      lra.
    + destruct Hmin as [Hz Ht]. simpl. split; [lia|].
      rewrite Hz. change (inject_Z 0) with 0. lra.
Qed.

Lemma stats_of_snoc ds d : stats_of (ds ++ [d]) = update_stats d (stats_of ds).
Proof. unfold stats_of. rewrite fold_left_app. reflexivity. Qed.

Lemma stats_inv_stats_of ds : stats_inv (stats_of ds).
Proof.
  induction ds as [|d ds IH] using rev_ind.
  - apply stats_inv_init.
  - rewrite stats_of_snoc. apply stats_inv_update, IH.
Qed.

Lemma call_count_stats_of ds : call_count (stats_of ds) = Z.of_nat (length ds).
Proof.
  induction ds as [|d ds IH] using rev_ind; [reflexivity|].
  rewrite stats_of_snoc, length_app. simpl. lia.
Qed.

(** The inequality between minimum, average and maximum, from the
    invariant alone. *)
Lemma stats_inv_avg s :
  stats_inv s -> (0 < call_count s)%Z ->
  exists a, avg_time s = Ok a /\
            a == total_time s / inject_Z (call_count s) /\
            pyfloat_le_Q (min_time s) a /\ a <= max_time s.
Proof.
  intros (Hn & Hmax & Hmin) Hpos.
  exists (total_time s / inject_Z (call_count s)).
  assert (Hq : 0 < inject_Z (call_count s)).
  { change 0 with (inject_Z 0). rewrite <- Zlt_Qlt. exact Hpos. }
  unfold avg_time, truediv.
  destruct (Z.ltb_spec 0 (call_count s)) as [_|?]; [|lia].
  destruct (Z.eqb_spec (call_count s) 0) as [?|_]; [lia|].
  split; [reflexivity|]. split; [reflexivity|]. split.
  - destruct (min_time s) as [m|]; simpl.
    + apply Qle_shift_div_l; [exact Hq | apply Hmin].
    + lia.
  - apply Qle_shift_div_r; [exact Hq | exact Hmax].
Qed.
End StatsArithmetic.

(** C10: [avg_time] always returns: the quotient [total_time / call_count]
    when [call_count > 0], and [0], with no division performed, otherwise.
    In particular it never raises [ZeroDivisionError]. *)
Theorem C10_avg_time_total (s : FunctionStats) :
  avg_time s =
  Ok (if (0 <? call_count s)%Z
      then (total_time s / inject_Z (call_count s))%Q
      else 0%Q).
Proof.
  unfold avg_time, truediv.
  destruct (Z.ltb_spec 0 (call_count s)) as [Hpos|Hle]; [|reflexivity].
  destruct (Z.eqb_spec (call_count s) 0) as [Hz|_]; [lia | reflexivity].
Qed.

(** C8: after any sequence of recordings of non-negative durations into a
    new [FunctionStats], once [call_count > 0] the average
    [total_time / call_count] lies between [min_time] and [max_time]. *)
Theorem C8_min_avg_max (ds : list Q) :
  Forall (fun d => (0 <= d)%Q) ds ->
  (0 < call_count (stats_of ds))%Z ->
  exists a : Q,
    avg_time (stats_of ds) = Ok a /\
    (a == total_time (stats_of ds) / inject_Z (call_count (stats_of ds)))%Q /\
    pyfloat_le_Q (min_time (stats_of ds)) a /\
    (a <= max_time (stats_of ds))%Q.
Proof.
  intros _ Hpos. apply stats_inv_avg; [apply stats_inv_stats_of | exact Hpos].
Qed.

Lemma C8_min_avg_max_witness :
  exists a : Q,
    avg_time (stats_of [1#2; 1#4; 3#4]%Q) = Ok a /\
    (a == total_time (stats_of [1#2; 1#4; 3#4]%Q)
          / inject_Z (call_count (stats_of [1#2; 1#4; 3#4]%Q)))%Q /\
    pyfloat_le_Q (min_time (stats_of [1#2; 1#4; 3#4]%Q)) a /\
    (a <= max_time (stats_of [1#2; 1#4; 3#4]%Q))%Q.
Proof.
  apply (C8_min_avg_max [1#2; 1#4; 3#4]%Q).
  - repeat constructor; discriminate.
  - reflexivity.
Defined.

(** ** Methods that leave the statistics store alone *)

Lemma same_store_refl w : same_store w w.
Proof. split; reflexivity. Qed.

Lemma same_store_trans w1 w2 w3 :
  same_store w1 w2 -> same_store w2 w3 -> same_store w1 w3.
Proof. intros [H1 H2] [H3 H4]. split; congruence. Qed.

(** Closes goals where the two runtimes differ in other fields only. *)
Ltac store_id := solve [split; reflexivity].

Lemma same_store_fold {A} (body : Runtime -> A -> Runtime) :
  (forall w x, same_store w (body w x)) ->
  forall xs w, same_store w (fold_left body xs w).
Proof.
  intros Hbody xs. induction xs as [|x xs IH]; intros w; simpl.
  - store_id.
  - eapply same_store_trans; [apply Hbody | apply IH].
Qed.

Lemma import_setattr_store m n v w w' :
  import_setattr m n v w = Ok w' -> same_store w w'.
Proof.
  unfold import_setattr. destruct (modules w !! m); [|discriminate].
  intros [= <-]. split; reflexivity.
Qed.

Lemma setup_one_store c w func : same_store w (setup_one c w func).
Proof.
  unfold setup_one; simpl.
  destruct (pydict_mem func (_wrapped_builtins (self w))); [store_id|].
  destruct (__module__ func), (__name__ func); try store_id.
  match goal with |- context [import_setattr ?m ?n ?v ?x] =>
    destruct (import_setattr m n v x) eqn:E end.
  - apply import_setattr_store in E. destruct E as [E1 E2]. split; [rewrite E1|rewrite E2]; reflexivity.
  - store_id.
Qed.

Lemma setup_store w : same_store w (_setup_builtin_tracing w).
Proof.
  unfold _setup_builtin_tracing.
  eapply same_store_trans; [|apply same_store_fold, setup_one_store].
  store_id.
Qed.

Lemma restore_one_store w item : same_store w (restore_one w item).
Proof.
  destruct item as [func original]; simpl.
  destruct (__module__ func), (__name__ func); try store_id.
  match goal with |- context [import_setattr ?m ?n ?v ?x] =>
    destruct (import_setattr m n v x) eqn:E end.
  - apply import_setattr_store in E. exact E.
  - store_id.
Qed.

Lemma restore_store w : same_store w (_restore_builtin_functions w).
Proof.
  unfold _restore_builtin_functions.
  destruct (same_store_fold restore_one restore_one_store
              (_original_builtins (self w)) w) as [H1 H2].
  split; simpl; assumption.
Qed.

Lemma classify_store w func : same_store w (classify w func).
Proof. unfold classify. destruct (_is_builtin_function func); store_id. Qed.

Lemma update_functions_store functions w :
  same_store w (update_functions functions w).2.
Proof.
  unfold update_functions. destruct (_enabled (self w)); simpl; [|store_id].
  eapply same_store_trans; [apply restore_store|].
  eapply same_store_trans; [|apply setup_store].
  eapply same_store_trans; [|apply same_store_fold, classify_store].
  store_id.
Qed.

Lemma enable_store functions w : same_store w (enable functions w).2.
Proof.
  unfold enable. destruct (_enabled (self w)).
  - destruct functions; [apply update_functions_store | store_id].
  - cbn [snd].
    match goal with |- same_store _ (on_self _ (_setup_builtin_tracing ?x)) =>
      apply (same_store_trans _ x) end.
    + destruct (truthy functions); [|store_id].
      eapply same_store_trans; [|apply same_store_fold, classify_store].
      store_id.
    + eapply same_store_trans; [apply setup_store | store_id].
Qed.

Lemma disable_store w : same_store w (disable w).2.
Proof.
  unfold disable. destruct (_enabled (self w)); simpl; [|store_id].
  eapply same_store_trans; [|apply restore_store]. store_id.
Qed.

Lemma disable_returns_store w : (disable w).1 = get_results w.
Proof.
  unfold disable, get_results. destruct (_enabled (self w)); simpl; [|reflexivity].
  exact (proj1 (same_store_fold restore_one restore_one_store _ _)).
Qed.

Lemma same_store_read w w' snap :
  same_store w w' -> read_snapshot w' snap = read_snapshot w snap.
Proof. intros [_ E]. unfold read_snapshot. rewrite E. reflexivity. Qed.

Lemma disable_disabled w : _enabled (self (disable w).2) = false.
Proof.
  unfold disable. destruct (_enabled (self w)) eqn:E; simpl; [reflexivity | exact E].
Qed.

(** ** The usage error *)

(** C6: [update_functions] on a disabled tracer raises [RuntimeError] at
    once and leaves the whole runtime, in particular every field of the
    tracer, as it was; the statistics read through [get_results] are the
    ones from before the call. *)
Theorem C6_update_while_disabled (functions : list Callable) (w : Runtime) :
  _enabled (self w) = false ->
  update_functions functions w = (Raise (RuntimeError "Tracing is not enabled"), w) /\
  read_snapshot (update_functions functions w).2
                (get_results (update_functions functions w).2)
  = read_snapshot w (get_results w).
Proof.
  intros E. unfold update_functions. rewrite E. simpl. split; reflexivity.
Qed.

Lemma C6_update_while_disabled_witness :
  update_functions [time_sleep] after_session
  = (Raise (RuntimeError "Tracing is not enabled"), after_session) /\
  read_snapshot (update_functions [time_sleep] after_session).2
                (get_results (update_functions [time_sleep] after_session).2)
  = read_snapshot after_session (get_results after_session).
Proof.
  apply (C6_update_while_disabled [time_sleep] after_session). reflexivity.
Defined.

(** ** Statistics across sessions *)


(** ** Snapshots share their [FunctionStats] objects with the store *)

(** C4 at a concrete program.  The dictionary returned by [get_results]
    while [fact] has one recorded call reads [call_count = 1]; after one
    more traced call the same dictionary reads [call_count = 2] with a new
    total and minimum.  The same happens to the dictionary returned by
    [disable] once tracing is enabled again. *)
Lemma C4_snapshot_aliasing :
  let snap := get_results mid_session in
  let later := run (call_fact 8 5 6) mid_session in
  let snap' := (disable mid_session).1 in
  let later' := run (OpEnable (Some [fact]) :: call_fact 8 5 6) (disable mid_session).2 in
  read_snapshot mid_session snap !! fid fact = Some (mkStats 1 2 (Fin 2) 2) /\
  read_snapshot later snap !! fid fact = Some (mkStats 2 3 (Fin 1) 2) /\
  read_snapshot (disable mid_session).2 snap' !! fid fact = Some (mkStats 1 2 (Fin 2) 2) /\
  read_snapshot later' snap' !! fid fact = Some (mkStats 2 3 (Fin 1) 2).
Proof. vm_compute. repeat split; reflexivity. Qed.

(** ** Wrapping and restoring module attributes *)

Lemma getattr_import_setattr m n m' n' v w w' :
  import_setattr m' n' v w = Ok w' ->
  getattr m n w' = if decide (m' = m /\ n' = n) then Some v else getattr m n w.
Proof.
  unfold import_setattr, getattr.
  destruct (modules w !! m') as [ns|] eqn:E; [|discriminate].
  intros [= <-]. simpl.
  destruct (decide (m' = m)) as [->|Hm].
  - rewrite lookup_insert_eq. simpl. rewrite E. simpl.
    destruct (decide (n' = n)) as [->|Hn].
    + rewrite lookup_insert_eq. rewrite decide_True by done. reflexivity.
    + rewrite lookup_insert_ne by done. rewrite decide_False by tauto. reflexivity.
  - rewrite lookup_insert_ne by done. rewrite decide_False by tauto. reflexivity.
Qed.

Lemma import_setattr_imported m m' n' v w w' :
  import_setattr m' n' v w = Ok w' ->
  is_Some (modules w !! m) -> is_Some (modules w' !! m).
Proof.
  unfold import_setattr.
  destruct (modules w !! m') as [ns|] eqn:E; [|discriminate].
  intros [= <-] H. simpl.
  destruct (decide (m' = m)) as [->|Hm].
  - rewrite lookup_insert_eq. eauto.
  - rewrite lookup_insert_ne by done. exact H.
Qed.

Lemma import_setattr_stdout m n v w w' :
  import_setattr m n v w = Ok w' -> stdout w' = stdout w /\ self w' = self w.
Proof.
  unfold import_setattr. destruct (modules w !! m); [|discriminate].
  intros [= <-]. split; reflexivity.
Qed.

Section Restore.
Variables (m n : string) (original : Callable).

Lemma restore_one_getattr w func o :
  is_Some (modules w !! m) ->
  (__module__ func = Some m -> __name__ func = Some n -> o = original) ->
  is_Some (modules (restore_one w (func, o)) !! m) /\
  ((__module__ func = Some m /\ __name__ func = Some n) \/
   getattr m n w = Some (Function original) ->
   getattr m n (restore_one w (func, o)) = Some (Function original)).
Proof.
  intros Hm Ho. simpl.
  destruct (__module__ func) as [m'|], (__name__ func) as [n'|];
    try (split; [exact Hm | intros [[? ?]|?]; [discriminate | assumption]]).
  destruct (import_setattr m' n' (Function o) w) as [w'|e] eqn:E.
  - split; [eapply import_setattr_imported; eauto|].
    rewrite (getattr_import_setattr _ _ _ _ _ _ _ E).
    intros [[[= ->] [= ->]]|H].
    + rewrite decide_True by done. rewrite Ho; reflexivity.
    + case_decide as Hd; [|exact H].
      destruct Hd as [-> ->]. rewrite Ho; reflexivity.
  - split; [exact Hm|].
    intros [[[= ->] [= ->]]|H]; [|exact H].
    unfold import_setattr in E. destruct Hm as [ns Hns]. rewrite Hns in E. discriminate.
Qed.

Lemma restore_fold_getattr items : forall w,
  is_Some (modules w !! m) ->
  one_original m n original items ->
  ((exists func o, (func, o) ∈ items /\
      __module__ func = Some m /\ __name__ func = Some n) \/
   getattr m n w = Some (Function original)) ->
  getattr m n (fold_left restore_one items w) = Some (Function original).
Proof.
  induction items as [|[func o] items IH]; intros w Hm Hone Hcase; simpl.
  - destruct Hcase as [(f & o & Hin & _)|H]; [|exact H].
    apply elem_of_nil in Hin. contradiction.
  - assert (Ho : __module__ func = Some m -> __name__ func = Some n -> o = original).
    { apply Hone. left. }
    destruct (restore_one_getattr w func o Hm Ho) as [Hm' Hget].
    apply IH; [exact Hm' | |].
    + intros f' o' Hin. apply Hone. right. exact Hin.
    + destruct Hcase as [(f' & o' & Hin & Hmod & Hname)|H].
      * apply elem_of_cons in Hin as [[= -> ->]|Hin].
        -- right. apply Hget. left. split; assumption.
        -- left. exists f', o'. repeat split; assumption.
      * right. apply Hget. right. exact H.
Qed.
End Restore.

Lemma restore_fold_quiet items : forall w,
  (forall func o m, (func, o) ∈ items ->
     __module__ func = Some m -> is_Some (modules w !! m)) ->
  stdout (fold_left restore_one items w) = stdout w.
Proof.
  induction items as [|[func o] items IH]; intros w Himp; simpl; [reflexivity|].
  assert (Hstep : stdout (restore_one w (func, o)) = stdout w /\
                  forall m, is_Some (modules w !! m) ->
                            is_Some (modules (restore_one w (func, o)) !! m)).
  { simpl. destruct (__module__ func) as [m'|] eqn:Em, (__name__ func) as [n'|];
      try (split; [reflexivity | tauto]).
    destruct (import_setattr m' n' (Function o) w) as [w'|e] eqn:E.
    - split; [apply (import_setattr_stdout _ _ _ _ _ E)|].
      intros m. eapply import_setattr_imported; eauto.
    - exfalso. unfold import_setattr in E.
      destruct (Himp func o m') as [ns Hns]; [left | exact Em |].
      rewrite Hns in E. discriminate. }
  destruct Hstep as [Hout Hmods]. rewrite <- Hout. apply IH.
  intros f' o' m' Hin Hmod. apply Hmods. eapply Himp; [right; exact Hin | exact Hmod].
Qed.




(** ** The closures installed by [_setup_builtin_tracing] *)

Lemma setup_one_cells c w func :
  cells (setup_one c w func) = <[c := Some func]> (cells w).
Proof.
  unfold setup_one; simpl.
  destruct (pydict_mem func (_wrapped_builtins (self w))); [reflexivity|].
  destruct (__module__ func), (__name__ func); try reflexivity.
  match goal with |- context [import_setattr ?m ?n ?v ?x] =>
    destruct (import_setattr m n v x) eqn:E end; [|reflexivity].
  unfold import_setattr in E. simpl in E.
  destruct (modules w !! _); [|discriminate]. injection E as <-. reflexivity.
Qed.

Lemma setup_fold_cells_length c funcs : forall w,
  length (cells (fold_left (setup_one c) funcs w)) = length (cells w).
Proof.
  induction funcs as [|func funcs IH]; intros w; simpl; [reflexivity|].
  rewrite IH, setup_one_cells. apply length_insert.
Qed.

(** Once a run of [_setup_builtin_tracing] is over, its cell holds the last
    function the loop iterated over: every closure created in that run
    reads this one function as [func]. *)
Lemma setup_cell_last w funcs last :
  _builtin_functions (self w) = funcs ++ [last] ->
  cells (_setup_builtin_tracing w) !! length (cells w) = Some (Some last).
Proof.
  intros E. unfold _setup_builtin_tracing. simpl. rewrite E.
  rewrite fold_left_app. simpl. rewrite setup_one_cells.
  apply list_lookup_insert_eq.
  rewrite setup_fold_cells_length. simpl. rewrite length_app. simpl. lia.
Qed.

Lemma wrapped_function_returns c call t0 t1 w func v :
  cells w !! c = Some (Some func) ->
  _enabled (self w) = true ->
  call func = Ok v ->
  wrapped_function c call t0 t1 w = (Ok v, record_call func (t1 - t0)%Q w).
Proof. intros Hc He Hv. unfold wrapped_function. rewrite Hc, He, Hv. reflexivity. Qed.

(** A failing original leaves [wrapped_function] before the statistics
    block: the runtime is exactly as it was. *)
Lemma wrapped_function_raises c call t0 t1 w func e :
  cells w !! c = Some (Some func) ->
  call func = Raise e ->
  wrapped_function c call t0 t1 w = (Raise e, w).
Proof.
  intros Hc Hv. unfold wrapped_function. rewrite Hc, Hv.
  destruct (_enabled (self w)); reflexivity.
Qed.

(** C2 at a concrete program: [time.sleep] and [time.ctime] are wrapped in
    one pass, by [enable] or by [update_functions], and the loop visits
    [time.sleep] first.  The closure bound to [time.sleep] runs
    [time.ctime], returns its result and records the duration under
    [time.ctime]; [time.sleep] gets no entry. *)
Lemma C2_closure_calls_last_target :
  let w := (enable (Some [time_sleep; time_ctime]) fresh).2 in
  let r := call_attr "time" "sleep" returns_own_id 0 1 w in
  let u := (update_functions [time_sleep; time_ctime] (enable None fresh).2).2 in
  let ru := call_attr "time" "sleep" returns_own_id 0 1 u in
  (getattr "time" "sleep" w = Some (Closure 0 time_sleep) /\
   r.1 = returns_own_id time_ctime /\
   r.1 <> returns_own_id time_sleep /\
   lookup_stats time_sleep r.2 = None /\
   lookup_stats time_ctime r.2 = Some (mkStats 1 1 (Fin 1) 1)) /\
  (getattr "time" "sleep" u = Some (Closure 1 time_sleep) /\
   ru.1 = returns_own_id time_ctime /\
   lookup_stats time_sleep ru.2 = None /\
   lookup_stats time_ctime ru.2 = Some (mkStats 1 1 (Fin 1) 1)).
Proof. vm_compute. repeat split; try reflexivity. discriminate. Qed.

(** The defect does not depend on which of the two the loop visits first:
    for either iteration order of the set, every closure of the pass,
    also the one made for the target visited first, runs the target
    visited last and records under it. *)
Lemma closure_misrouted_in_either_order (first last : Callable) (w : Runtime)
    (call : Callable -> result Z) (t0 t1 : Q) (v : Z) :
  _builtin_functions (self w) = [first; last] ->
  _enabled (self (_setup_builtin_tracing w)) = true ->
  call last = Ok v ->
  cells (_setup_builtin_tracing w) !! length (cells w) = Some (Some last) /\
  wrapped_function (length (cells w)) call t0 t1 (_setup_builtin_tracing w)
  = (Ok v, record_call last (t1 - t0)%Q (_setup_builtin_tracing w)).
Proof.
  intros E He Hv.
  assert (Hc : cells (_setup_builtin_tracing w) !! length (cells w) = Some (Some last))
    by (apply (setup_cell_last w [first] last); exact E).
  split; [exact Hc|]. apply wrapped_function_returns; assumption.
Qed.

(** With a single opaque target the closure does run that target. *)
Lemma single_target_closure :
  let w := (enable (Some [time_sleep]) fresh).2 in
  let r := call_attr "time" "sleep" returns_own_id 0 1 w in
  r.1 = returns_own_id time_sleep /\
  lookup_stats time_sleep r.2 = Some (mkStats 1 1 (Fin 1) 1).
Proof. vm_compute. split; reflexivity. Qed.

(** C3 at a concrete program: [time.sleep] is the only wrapped target and
    fails when called through its closure.  The error reaches the caller
    unchanged, but the runtime is untouched: no entry is created and no
    duration is recorded, whereas the same call returning normally is
    recorded. *)
Lemma C3_failure_not_recorded :
  let w := (enable (Some [time_sleep]) fresh).2 in
  call_attr "time" "sleep" sleep_raises 0 1 w = (Raise (UserError 7), w) /\
  lookup_stats time_sleep (call_attr "time" "sleep" sleep_raises 0 1 w).2 = None /\
  lookup_stats time_sleep (call_attr "time" "sleep" returns_own_id 0 1 w).2
  = Some (mkStats 1 1 (Fin 1) 1).
Proof. vm_compute. repeat split; reflexivity. Qed.

(** The trace hook, by contrast, measures a hookable function that fails:
    the interpreter delivers [Exception] and then [Return] for the unwinding
    frame, and [Return] records. *)
Lemma hook_records_failing_call :
  let fr := mkFrame 7 100 in
  let w := run [OpEnable (Some [fact]); OpTrace fr Call 1;
                OpTrace fr Exception 2; OpTrace fr Return 3] fresh in
  lookup_stats fact w = Some (mkStats 1 2 (Fin 2) 2).
Proof. vm_compute. reflexivity. Qed.

(** ** Recording into the store *)

Lemma recorded_update d s : stats_inv s -> recorded (update_stats d s).
Proof.
  intros H. split; [apply stats_inv_update, H|].
  destruct H as [Hn _]. simpl. lia.
Qed.

Lemma alter_new_object (upd : FunctionStats -> FunctionStats) h s :
  alter upd (length h) (h ++ [s]) = h ++ [upd s].
Proof.
  induction h as [|x h IH]; simpl; [reflexivity|].
  f_equal. exact IH.
Qed.

Lemma record_call_heap_recorded func d w :
  heap_recorded w -> heap_recorded (record_call func d w).
Proof.
  unfold heap_recorded, record_call, stats_getitem. intros H.
  destruct (_stats (self w) !! fid func) as [l|]; simpl.
  - apply Forall_alter; [exact H|].
    intros s _ [Hs _]. apply recorded_update, Hs.
  - rewrite alter_new_object. apply Forall_app. split; [exact H|].
    constructor; [|constructor]. apply recorded_update, stats_inv_init.
Qed.

Lemma same_store_heap_recorded w w' :
  same_store w w' -> heap_recorded w -> heap_recorded w'.
Proof. intros [_ E]. unfold heap_recorded. rewrite E. tauto. Qed.

Lemma trace_function_heap_recorded fr ev now w :
  heap_recorded w -> heap_recorded (_trace_function fr ev now w).2.
Proof.
  intros H. destruct ev; simpl; try exact H.
  - destruct (find_traced _ _); exact H.
  - destruct (_call_stack (self w) !! frame_id fr) as [[func start]|]; [|exact H].
    simpl. apply record_call_heap_recorded. exact H.
Qed.

Lemma wrapped_function_heap_recorded c call t0 t1 w :
  heap_recorded w -> heap_recorded (wrapped_function c call t0 t1 w).2.
Proof.
  intros H. unfold wrapped_function.
  destruct (cells w !! c) as [[func|]|]; try exact H.
  destruct (_enabled (self w)); simpl; [|exact H].
  destruct (call func); simpl; [|exact H].
  apply record_call_heap_recorded, H.
Qed.

Lemma step_heap_recorded w o : heap_recorded w -> heap_recorded (step w o).
Proof.
  intros H. destruct o; simpl.
  - eapply same_store_heap_recorded; [apply enable_store | exact H].
  - eapply same_store_heap_recorded; [apply disable_store | exact H].
  - eapply same_store_heap_recorded; [apply update_functions_store | exact H].
  - exact H.
  - exact H.
  - apply trace_function_heap_recorded, H.
  - unfold call_attr. destruct (getattr m n w) as [[g|c wraps]|]; try exact H.
    apply wrapped_function_heap_recorded, H.
  - apply wrapped_function_heap_recorded, H.
  - destruct (import_setattr m n v w) eqn:E; [|exact H].
    eapply same_store_heap_recorded; [eapply import_setattr_store, E | exact H].
Qed.

Lemma run_heap_recorded ops : forall w,
  heap_recorded w -> heap_recorded (run ops w).
Proof.
  induction ops as [|o ops IH]; intros w H; simpl; [exact H|].
  apply IH, step_heap_recorded, H.
Qed.

(** Whatever dictionary of references a caller holds, at any point of any
    program, each entry it can read has been recorded into. *)
Lemma reachable_snapshot_recorded mods tr ops (snap : gmap positive nat) k s :
  read_snapshot (run ops (Runtime_init mods tr)) snap !! k = Some s -> recorded s.
Proof.
  unfold read_snapshot. rewrite lookup_omap. intros H.
  destruct (snap !! k) as [l|]; [|discriminate]. simpl in H.
  assert (Hh : heap_recorded (run ops (Runtime_init mods tr))).
  { apply run_heap_recorded. constructor. }
  eapply Forall_lookup_1 in Hh; [exact Hh | exact H].
Qed.

(** C9: at every point of every program, each entry of the dictionary
    returned by [get_results] or by [disable] has [call_count >= 1]: an
    object enters the store only inside a recording block, whose first
    statement increments its count, and no count is ever lowered. *)
Theorem C9_no_zero_count (mods : gmap string (gmap string pyobj))
    (tr : option trace_fn) (ops : list op) (k : positive) (s : FunctionStats) :
  let w := run ops (Runtime_init mods tr) in
  read_snapshot w (get_results w) !! k = Some s \/
  read_snapshot (disable w).2 (disable w).1 !! k = Some s ->
  (1 <= call_count s)%Z.
Proof.
  intros w [H|H].
  - apply reachable_snapshot_recorded in H. apply H.
  - assert (E : (disable w).2 = run (ops ++ [OpDisable]) (Runtime_init mods tr)).
    { unfold run. rewrite fold_left_app. reflexivity. }
    rewrite E in H. apply reachable_snapshot_recorded in H. apply H.
Qed.

Lemma C9_no_zero_count_witness :
  read_snapshot mid_session (get_results mid_session) !! fid fact
  = Some (mkStats 1 2 (Fin 2) 2) /\
  (1 <= call_count (mkStats 1 2 (Fin 2) 2))%Z.
Proof.
  assert (H : read_snapshot mid_session (get_results mid_session) !! fid fact
              = Some (mkStats 1 2 (Fin 2) 2)) by (vm_compute; reflexivity).
  split; [exact H|].
  apply (C9_no_zero_count sys_modules None
           (OpEnable (Some [fact]) :: call_fact 7 1 3) (fid fact)).
  left. exact H.
Defined.


(** ** Entry and exit events of recursive activations *)

Lemma stats_wf_init mods tr : stats_wf (Runtime_init mods tr).
Proof. split; simpl; intros *; rewrite lookup_empty; discriminate. Qed.

Lemma same_store_wf w w' : same_store w w' -> stats_wf w -> stats_wf w'.
Proof. intros [E1 E2] H. unfold stats_wf. rewrite E1, E2. exact H. Qed.

Section RecordCall.
Variables (func : Callable) (d : Q) (w : Runtime).
Hypothesis Hwf : stats_wf w.

Lemma record_call_self : self (record_call func d w) =
  set_stats (_stats (self (record_call func d w))) (self w).
Proof.
  unfold record_call, stats_getitem.
  destruct (_stats (self w) !! fid func); simpl; destruct (self w); reflexivity.
Qed.

Lemma record_call_lookup :
  lookup_stats func (record_call func d w)
  = Some (update_stats d (stats_or_new func w)).
Proof.
  destruct Hwf as [Hbound _].
  unfold stats_or_new, lookup_stats, record_call, stats_getitem.
  destruct (_stats (self w) !! fid func) as [l|] eqn:E; simpl.
  - rewrite E. simpl. rewrite list_lookup_alter_eq.
    destruct (lookup_lt_is_Some_2 (heap w) l (Hbound _ _ E)) as [s Hs].
    rewrite Hs. reflexivity.
  - rewrite lookup_insert_eq. simpl.
    rewrite alter_new_object, lookup_app_r by lia.
    rewrite Nat.sub_diag. reflexivity.
Qed.

Lemma record_call_other g :
  fid g <> fid func ->
  lookup_stats g (record_call func d w) = lookup_stats g w.
Proof.
  destruct Hwf as [Hbound Hinj]. intros Hne.
  unfold lookup_stats, record_call, stats_getitem.
  destruct (_stats (self w) !! fid func) as [l|] eqn:E; simpl.
  - destruct (_stats (self w) !! fid g) as [l'|] eqn:E'; [|reflexivity]. simpl.
    apply list_lookup_alter_ne. intros ->. apply Hne. eapply Hinj; eassumption.
  - rewrite lookup_insert_ne by congruence.
    destruct (_stats (self w) !! fid g) as [l'|] eqn:E'; [|reflexivity]. simpl.
    rewrite alter_new_object. pose proof (Hbound _ _ E').
    rewrite !lookup_app_l by lia. reflexivity.
Qed.

Lemma record_call_wf : stats_wf (record_call func d w).
Proof.
  destruct Hwf as [Hbound Hinj].
  unfold stats_wf, record_call, stats_getitem.
  destruct (_stats (self w) !! fid func) as [l|] eqn:E; simpl.
  - rewrite length_alter. split; assumption.
  - rewrite alter_new_object, length_app. simpl. split.
    + intros k l'. rewrite lookup_insert. case_decide.
      * intros [= <-]. lia.
      * intros H'. apply Hbound in H'. lia.
    + intros k1 k2 l'. rewrite !lookup_insert.
      repeat case_decide; subst; intros H1 H2; try congruence.
      * injection H1 as <-. apply Hbound in H2. lia.
      * injection H2 as <-. apply Hbound in H1. lia.
      * eapply Hinj; eassumption.
Qed.
End RecordCall.

Lemma delete_foldr_delete (ids : list Z) : forall (a : Z) (m : gmap Z (Callable * Q)),
  delete a (foldr delete m ids) = foldr delete (delete a m) ids.
Proof.
  induction ids as [|i ids IH]; intros a m; simpl; [reflexivity|].
  rewrite delete_delete, IH. reflexivity.
Qed.

Lemma lookup_foldr_delete (ids : list Z) (a : Z) (m : gmap Z (Callable * Q)) :
  a ∉ ids -> foldr delete m ids !! a = m !! a.
Proof.
  induction ids as [|i ids IH]; simpl; [reflexivity|].
  intros Hn. apply not_elem_of_cons in Hn as [Hne Hn].
  rewrite lookup_delete_ne by congruence. apply IH, Hn.
Qed.

Lemma run_events_app es1 es2 w :
  run_events (es1 ++ es2) w = run_events es2 (run_events es1 w).
Proof. unfold run_events. apply fold_left_app. Qed.

Lemma run_events_cons e es w :
  run_events (e :: es) w = run_events es (deliver w e).
Proof. reflexivity. Qed.

Lemma deliver_call w i code now func :
  find_traced code (_traced_functions (self w)) = Some func ->
  deliver w (mkFrame i code, Call, now)
  = on_self (fun t => set_call_stack (<[i := (func, now)]> (_call_stack t)) t) w.
Proof. intros H. unfold deliver. simpl. rewrite H. reflexivity. Qed.

Lemma deliver_line w fr now : deliver w (fr, Line, now) = w.
Proof. reflexivity. Qed.

Lemma deliver_return w i code now func start_time :
  _call_stack (self w) !! i = Some (func, start_time) ->
  deliver w (mkFrame i code, Return, now)
  = record_call func (now - start_time)%Q
      (on_self (fun t => set_call_stack (delete i (_call_stack t)) t) w).
Proof. intros H. unfold deliver. simpl. rewrite H. reflexivity. Qed.

(** Events other than [Call] and [Return] do nothing. *)
Lemma trace_function_other_event fr ev now w :
  ev <> Call -> ev <> Return -> _trace_function fr ev now w = (None, w).
Proof. destruct ev; simpl; congruence. Qed.

(** What one chain of self-calls does to the runtime. *)
Lemma chain_events_run code func (acts : list activation) : forall w,
  find_traced code (_traced_functions (self w)) = Some func ->
  NoDup (map act_frame acts) ->
  stats_wf w ->
  stats_wf (run_events (chain_events code acts) w) /\
  _traced_functions (self (run_events (chain_events code acts) w))
    = _traced_functions (self w) /\
  _call_stack (self (run_events (chain_events code acts) w))
    = foldr delete (_call_stack (self w)) (map act_frame acts) /\
  lookup_stats func (run_events (chain_events code acts) w)
    = match acts with
      | [] => lookup_stats func w
      | _ => Some (foldr (fun a s => update_stats (act_duration a) s)
                         (stats_or_new func w) acts)
      end /\
  (forall g, fid g <> fid func ->
     lookup_stats g (run_events (chain_events code acts) w) = lookup_stats g w).
Proof.
  induction acts as [|a inner IH]; intros w Hfind Hnd Hwf.
  - simpl. repeat split; try reflexivity; apply Hwf.
  - apply NoDup_cons in Hnd as [Hfresh Hnd].
    cbn [chain_events].
    rewrite run_events_cons, (deliver_call _ _ _ _ _ Hfind).
    rewrite run_events_cons, deliver_line, run_events_app.
    set (w1 := on_self _ w).
    assert (Hfind1 : find_traced code (_traced_functions (self w1)) = Some func)
      by exact Hfind.
    assert (Hwf1 : stats_wf w1) by exact Hwf.
    destruct (IH w1 Hfind1 Hnd Hwf1) as (Hwf2 & Htr2 & Hcs2 & Hst2 & Hoth2).
    set (w2 := run_events (chain_events code inner) w1) in *.
    assert (Hnew : stats_or_new func w2
                   = foldr (fun a s => update_stats (act_duration a) s)
                           (stats_or_new func w) inner).
    { unfold stats_or_new at 1. rewrite Hst2. destruct inner; reflexivity. }
    assert (Hpop : _call_stack (self w2) !! act_frame a = Some (func, act_enter a)).
    { rewrite Hcs2, lookup_foldr_delete by exact Hfresh.
      subst w1. simpl. apply lookup_insert_eq. }
    rewrite run_events_cons, deliver_line, run_events_cons.
    rewrite (deliver_return _ _ _ _ _ _ Hpop).
    change (run_events [] ?x) with x.
    set (w3 := on_self _ w2).
    assert (Hwf3 : stats_wf w3) by exact Hwf2.
    split; [apply record_call_wf, Hwf3|].
    split; [rewrite record_call_self; simpl; exact Htr2|].
    split; [|split].
    + rewrite record_call_self. subst w3. simpl. rewrite Hcs2.
      rewrite delete_foldr_delete. subst w1. simpl.
      rewrite delete_insert_eq. rewrite <- delete_foldr_delete. reflexivity.
    + rewrite (record_call_lookup _ _ _ Hwf3).
      change (stats_or_new func w3) with (stats_or_new func w2).
      rewrite Hnew. reflexivity.
    + intros g Hne. rewrite (record_call_other _ _ _ Hwf3) by exact Hne.
      change (lookup_stats g w3) with (lookup_stats g w2).
      rewrite Hoth2 by exact Hne. reflexivity.
Qed.

Lemma call_count_foldr_update (acts : list activation) s :
  call_count (foldr (fun a s => update_stats (act_duration a) s) s acts)
  = (call_count s + Z.of_nat (length acts))%Z.
Proof.
  induction acts as [|a acts IH]; simpl; [lia|]. rewrite IH. lia.
Qed.

(** The search of [_trace_function] finds a traced function when it is the
    only traced one with the frame's code object. *)
Lemma find_traced_unique code traced func :
  In func traced ->
  __code__ func = Some code ->
  (forall g, In g traced -> __code__ g = Some code -> g = func) ->
  find_traced code traced = Some func.
Proof.
  unfold find_traced. induction traced as [|g rest IH]; intros Hin Hc Huniq; [destruct Hin|].
  simpl. destruct (__code__ g) as [c|] eqn:Eg.
  - destruct (Pos.eqb_spec c code) as [->|Hne].
    + f_equal. apply Huniq; [left; reflexivity | exact Eg].
    + destruct Hin as [->|Hin]; [congruence|].
      apply IH; [exact Hin | exact Hc | intros g' Hg'; apply Huniq; right; exact Hg'].
  - destruct Hin as [->|Hin]; [congruence|].
    apply IH; [exact Hin | exact Hc | intros g' Hg'; apply Huniq; right; exact Hg'].
Qed.




(** * Further properties *)

(** ** What the four update statements compute *)

Lemma Qsum_snoc ds d : (Qsum (ds ++ [d]) == Qsum ds + d)%Q.
Proof.
  induction ds as [|x ds IH]; simpl.
  - ring.
  - rewrite IH. ring.
Qed.

Lemma stats_of_count_and_total_aux (ds : list Q) :
  call_count (stats_of ds) = Z.of_nat (length ds) /\
  (total_time (stats_of ds) == Qsum ds)%Q.
Proof.
  induction ds as [|d ds [IHn IHt]] using rev_ind.
  - split; reflexivity.
  - rewrite stats_of_snoc, length_app. simpl. split; [lia|].
    rewrite IHt, Qsum_snoc. reflexivity.
Qed.

(** After recording the durations [ds] into a new [FunctionStats],
    [call_count] is their number, whatever their values. *)
Theorem stats_of_call_count (ds : list Q) :
  call_count (stats_of ds) = Z.of_nat (length ds).
Proof. destruct (stats_of_count_and_total_aux ds) as [Hn _]. exact Hn. Qed.

Lemma py_min_cases m d :
  (py_min m d = Fin d /\ (forall q, m = Fin q -> (d <= q)%Q)) \/
  (exists q, m = Fin q /\ py_min m d = Fin q /\ (q <= d)%Q).
Proof.
  destruct m as [q|]; simpl.
  - destruct (Qlt_bool d q) eqn:E.
    + left. split; [reflexivity|]. intros q' [= <-].
      apply Qlt_bool_true in E. apply Qlt_le_weak, E.
    + right. exists q. repeat split. apply Qlt_bool_false, E.
  - left. split; [reflexivity | discriminate].
Qed.

(** After recording at least one duration, [min_time] is one of the
    recorded durations and no recorded duration is below it; [max_time] is
    either the initial [0.0] or one of the recorded durations, and no
    recorded duration is above it.  (Since [max_time] starts at [0.0], it
    stays [0.0] when every duration is negative.) *)
Theorem stats_of_min_max (ds : list Q) :
  ds <> [] ->
  (exists lo, min_time (stats_of ds) = Fin lo /\ In lo ds /\
              Forall (fun d => (lo <= d)%Q) ds) /\
  (max_time (stats_of ds) = 0%Q \/ In (max_time (stats_of ds)) ds) /\
  (0 <= max_time (stats_of ds))%Q /\
  Forall (fun d => (d <= max_time (stats_of ds))%Q) ds.
Proof.
  induction ds as [|d ds IH] using rev_ind; [congruence|]. intros _.
  rewrite stats_of_snoc. simpl.
  assert (Hmax : (max_time (stats_of ds) = 0%Q \/ In (max_time (stats_of ds)) ds) /\
                 (0 <= max_time (stats_of ds))%Q /\
                 Forall (fun d => (d <= max_time (stats_of ds))%Q) ds).
  { destruct ds as [|d0 ds0]; [|apply IH; discriminate].
    simpl. repeat split; [left; reflexivity | apply Qle_refl | constructor]. }
  destruct Hmax as (Hin & Hpos & Hub).
  destruct (py_max_ub (max_time (stats_of ds)) d) as [Hm1 Hm2].
  split; [|split; [|split]].
  - destruct (py_min_cases (min_time (stats_of ds)) d)
      as [[E Hle]|(q & Eq & E & Hle)]; rewrite E.
    + exists d. split; [reflexivity|]. split; [apply in_or_app; right; left; reflexivity|].
      apply Forall_app. split; [|constructor; [apply Qle_refl|constructor]].
      destruct ds as [|d0 ds0]; [constructor|].
      destruct IH as [(lo & Elo & _ & Hlb) _]; [discriminate|].
      eapply Forall_impl; [exact Hlb|]. simpl. intros x Hx.
      eapply Qle_trans; [apply (Hle _ Elo) | exact Hx].
    + exists q. split; [reflexivity|].
      destruct ds as [|d0 ds0]; [discriminate Eq|].
      destruct IH as [(lo & Elo & Hinlo & Hlb) _]; [discriminate|].
      rewrite Eq in Elo. injection Elo as <-.
      split; [apply in_or_app; left; exact Hinlo|].
      apply Forall_app. split; [exact Hlb | constructor; [exact Hle | constructor]].
  - unfold py_max. destruct (Qlt_bool (max_time (stats_of ds)) d).
    + right. apply in_or_app. right. left. reflexivity.
    + destruct Hin as [Hz|Hin]; [left; exact Hz | right; apply in_or_app; left; exact Hin].
  - eapply Qle_trans; [exact Hpos | exact Hm1].
  - apply Forall_app. split; [|constructor; [exact Hm2 | constructor]].
    eapply Forall_impl; [exact Hub|]. simpl. intros x Hx.
    eapply Qle_trans; [exact Hx | exact Hm1].
Qed.

Lemma stats_of_min_max_witness :
  (exists lo, min_time (stats_of [1#2; 1#4; 3#4]%Q) = Fin lo /\
              In lo [1#2; 1#4; 3#4]%Q /\
              Forall (fun d => (lo <= d)%Q) [1#2; 1#4; 3#4]%Q) /\
  (max_time (stats_of [1#2; 1#4; 3#4]%Q) = 0%Q \/
   In (max_time (stats_of [1#2; 1#4; 3#4]%Q)) [1#2; 1#4; 3#4]%Q) /\
  (0 <= max_time (stats_of [1#2; 1#4; 3#4]%Q))%Q /\
  Forall (fun d => (d <= max_time (stats_of [1#2; 1#4; 3#4]%Q))%Q) [1#2; 1#4; 3#4]%Q.
Proof. apply (stats_of_min_max [1#2; 1#4; 3#4]%Q). discriminate. Defined.

(** ** Which fields each method writes *)

Lemma fold_left_preserves {A} (P : Runtime -> Prop) (body : Runtime -> A -> Runtime) :
  (forall w x, P w -> P (body w x)) ->
  forall xs w, P w -> P (fold_left body xs w).
Proof.
  intros Hbody xs. induction xs as [|x xs IH]; intros w H; simpl; [exact H|].
  apply IH, Hbody, H.
Qed.

Lemma import_setattr_frame m n v w w' :
  import_setattr m n v w = Ok w' ->
  self w' = self w /\ heap w' = heap w /\ cells w' = cells w /\
  sys_trace w' = sys_trace w /\ stdout w' = stdout w.
Proof.
  unfold import_setattr. destruct (modules w !! m); [|discriminate].
  intros [= <-]. repeat split.
Qed.

(** Restoring writes module attributes and prints, nothing else. *)
Lemma restore_one_frame w item :
  self (restore_one w item) = self w /\
  heap (restore_one w item) = heap w /\
  cells (restore_one w item) = cells w /\
  sys_trace (restore_one w item) = sys_trace w.
Proof.
  destruct item as [func original]; simpl.
  destruct (__module__ func), (__name__ func); try (repeat split; reflexivity).
  match goal with |- context [import_setattr ?m ?n ?v ?x] =>
    destruct (import_setattr m n v x) eqn:E end; [|repeat split; reflexivity].
  apply import_setattr_frame in E. tauto.
Qed.

Lemma restore_fold_frame items w :
  self (fold_left restore_one items w) = self w /\
  heap (fold_left restore_one items w) = heap w /\
  cells (fold_left restore_one items w) = cells w /\
  sys_trace (fold_left restore_one items w) = sys_trace w.
Proof.
  apply (fold_left_preserves
           (fun w' => self w' = self w /\ heap w' = heap w /\
                      cells w' = cells w /\ sys_trace w' = sys_trace w)).
  - intros w' x (H1 & H2 & H3 & H4).
    destruct (restore_one_frame w' x) as (E1 & E2 & E3 & E4).
    repeat split; congruence.
  - repeat split.
Qed.

(** After [_restore_builtin_functions] the tracer is the one before with
    the opaque targets and both record dictionaries emptied. *)
Lemma restore_self w :
  self (_restore_builtin_functions w)
  = set_builtin_functions [] (erase_records (self w)).
Proof.
  unfold _restore_builtin_functions. simpl.
  destruct (restore_fold_frame (_original_builtins (self w)) w) as (E & _).
  rewrite E. destruct (self w); reflexivity.
Qed.

Lemma restore_sys_trace w : sys_trace (_restore_builtin_functions w) = sys_trace w.
Proof.
  unfold _restore_builtin_functions. simpl.
  apply (restore_fold_frame (_original_builtins (self w)) w).
Qed.

Lemma pydict_mem_keys {V} (f : Callable) (d : list (Callable * V)) :
  pydict_mem f d = pyset_mem f (map fst d).
Proof.
  unfold pydict_mem, pyset_mem. induction d as [|kv d IH]; simpl; [reflexivity|].
  rewrite IH. reflexivity.
Qed.

Lemma pyset_mem_fid f s : pyset_mem f s = true <-> In (fid f) (map fid s).
Proof.
  unfold pyset_mem. rewrite existsb_exists, in_map_iff. unfold same_object.
  split.
  - intros (g & Hin & E). apply Pos.eqb_eq in E. exists g. split; [congruence | exact Hin].
  - intros (g & E & Hin). exists g. split; [exact Hin|]. apply Pos.eqb_eq. congruence.
Qed.

Lemma pyset_mem_false f s : ~ In (fid f) (map fid s) -> pyset_mem f s = false.
Proof.
  intros H. destruct (pyset_mem f s) eqn:E; [|reflexivity].
  apply pyset_mem_fid in E. contradiction.
Qed.

(** One iteration of the wrapping loop for a target that has no record yet:
    both dictionaries get a new last item, nothing else on the tracer
    changes. *)
Lemma setup_one_self c w func :
  pydict_mem func (_wrapped_builtins (self w)) = false ->
  pydict_mem func (_original_builtins (self w)) = false ->
  self (setup_one c w func)
  = set_wrapped_builtins (_wrapped_builtins (self w) ++ [(func, Closure c func)])
      (set_original_builtins (_original_builtins (self w) ++ [(func, func)]) (self w)).
Proof.
  intros Hw Ho. unfold setup_one. simpl. rewrite Hw. unfold pydict_set.
  destruct (__module__ func), (__name__ func);
    try match goal with |- context [import_setattr ?m ?n ?v ?x] =>
      destruct (import_setattr m n v x) eqn:E;
      [apply import_setattr_frame in E; destruct E as [E _]; rewrite E|] end;
    simpl; rewrite Hw, Ho; reflexivity.
Qed.

Lemma setup_one_frame c w func :
  erase_records (self (setup_one c w func)) = erase_records (self w) /\
  heap (setup_one c w func) = heap w /\
  sys_trace (setup_one c w func) = sys_trace w.
Proof.
  unfold setup_one. simpl.
  destruct (pydict_mem func (_wrapped_builtins (self w))); [repeat split|].
  destruct (__module__ func), (__name__ func); try (repeat split; reflexivity).
  match goal with |- context [import_setattr ?m ?n ?v ?x] =>
    destruct (import_setattr m n v x) eqn:E end; [|repeat split; reflexivity].
  apply import_setattr_frame in E. destruct E as (E1 & E2 & _ & E4 & _).
  rewrite E1, E2, E4. repeat split.
Qed.

Lemma setup_frame w :
  erase_records (self (_setup_builtin_tracing w)) = erase_records (self w) /\
  heap (_setup_builtin_tracing w) = heap w /\
  sys_trace (_setup_builtin_tracing w) = sys_trace w.
Proof.
  unfold _setup_builtin_tracing.
  apply (fold_left_preserves
           (fun w' => erase_records (self w') = erase_records (self w) /\
                      heap w' = heap w /\ sys_trace w' = sys_trace w)).
  - intros w' x (H1 & H2 & H3).
    destruct (setup_one_frame (length (cells w)) w' x) as (E1 & E2 & E3).
    repeat split; congruence.
  - repeat split.
Qed.

(** The fields that [erase_records] keeps. *)
Lemma erase_records_fields t t' :
  erase_records t' = erase_records t ->
  _enabled t' = _enabled t /\
  _traced_functions t' = _traced_functions t /\
  _decorated_functions t' = _decorated_functions t /\
  _stats t' = _stats t /\
  _call_stack t' = _call_stack t /\
  _original_trace_function t' = _original_trace_function t /\
  _builtin_functions t' = _builtin_functions t.
Proof.
  intros E.
  repeat split;
    [ change (_enabled (erase_records t') = _enabled (erase_records t))
    | change (_traced_functions (erase_records t') = _traced_functions (erase_records t))
    | change (_decorated_functions (erase_records t')
              = _decorated_functions (erase_records t))
    | change (_stats (erase_records t') = _stats (erase_records t))
    | change (_call_stack (erase_records t') = _call_stack (erase_records t))
    | change (_original_trace_function (erase_records t')
              = _original_trace_function (erase_records t))
    | change (_builtin_functions (erase_records t')
              = _builtin_functions (erase_records t)) ];
    rewrite E; reflexivity.
Qed.

(** The wrapping loop over targets none of which has a record yet. *)
Lemma setup_fold_records c (todo : list Callable) : forall w,
  map fst (_original_builtins (self w)) = map fst (_wrapped_builtins (self w)) ->
  NoDup (map fid (map fst (_wrapped_builtins (self w)) ++ todo)) ->
  (forall func o, (func, o) ∈ _original_builtins (self w) -> o = func) ->
  let w' := fold_left (setup_one c) todo w in
  map fst (_original_builtins (self w'))
    = map fst (_original_builtins (self w)) ++ todo /\
  map fst (_wrapped_builtins (self w'))
    = map fst (_wrapped_builtins (self w)) ++ todo /\
  (forall func o, (func, o) ∈ _original_builtins (self w') -> o = func).
Proof.
  induction todo as [|func todo IH]; intros w Hkeys Hnd Hself; simpl.
  - rewrite !app_nil_r. repeat split. exact Hself.
  - assert (Hfresh : pydict_mem func (_wrapped_builtins (self w)) = false).
    { rewrite pydict_mem_keys. apply pyset_mem_false.
      rewrite map_app in Hnd. apply NoDup_app in Hnd as (_ & Hdis & _).
      intros Hin. apply (Hdis (fid func)).
      - apply list_elem_of_In. exact Hin.
      - left. }
    assert (Hfresh' : pydict_mem func (_original_builtins (self w)) = false).
    { rewrite pydict_mem_keys, Hkeys, <- pydict_mem_keys. exact Hfresh. }
    pose proof (setup_one_self c w func Hfresh Hfresh') as E.
    destruct (IH (setup_one c w func)) as (H1 & H2 & H3).
    + rewrite E. simpl. rewrite !map_app, Hkeys. reflexivity.
    + rewrite E. simpl. rewrite (map_app fst), <- app_assoc. exact Hnd.
    + rewrite E. simpl. intros f o Hin. apply elem_of_app in Hin as [Hin|Hin].
      * apply Hself, Hin.
      * apply list_elem_of_singleton in Hin. congruence.
    + rewrite H1, H2, E. simpl. rewrite !map_app. simpl.
      rewrite <- !app_assoc. repeat split. exact H3.
Qed.

(** ** Target sets *)

Lemma pyset_add_fids f s :
  NoDup (map fid s) -> NoDup (map fid (pyset_add f s)).
Proof.
  intros H. unfold pyset_add. destruct (pyset_mem f s) eqn:E; [exact H|].
  rewrite map_app. simpl. apply NoDup_app. split; [exact H|]. split.
  - intros x Hx Hin. apply list_elem_of_singleton in Hin. subst x.
    apply list_elem_of_In in Hx. apply pyset_mem_fid in Hx. congruence.
  - apply NoDup_singleton.
Qed.

Lemma pyset_add_mem f g s :
  pyset_mem g (pyset_add f s) = pyset_mem g s || same_object g f.
Proof.
  unfold pyset_add. destruct (pyset_mem f s) eqn:E.
  - destruct (same_object g f) eqn:Eg; [|rewrite orb_false_r; reflexivity].
    rewrite orb_true_r. unfold same_object in Eg. apply Pos.eqb_eq in Eg.
    apply pyset_mem_fid. rewrite Eg. apply pyset_mem_fid, E.
  - unfold pyset_mem. rewrite existsb_app. simpl. rewrite orb_false_r. reflexivity.
Qed.

Lemma pyset_add_in f g s : In g (pyset_add f s) -> In g s \/ g = f.
Proof.
  unfold pyset_add. destruct (pyset_mem f s); [tauto|].
  intros H. apply in_app_or in H as [H|[H|[]]]; [left; exact H | right; congruence].
Qed.

Lemma add_all_fids fs : forall s,
  NoDup (map fid s) -> NoDup (map fid (add_all fs s)).
Proof.
  induction fs as [|f fs IH]; intros s H; simpl; [exact H|].
  apply IH, pyset_add_fids, H.
Qed.

Lemma add_all_in fs : forall s g, In g (add_all fs s) -> In g s \/ In g fs.
Proof.
  induction fs as [|f fs IH]; intros s g H; simpl in *; [tauto|].
  apply IH in H as [H|H]; [|tauto].
  apply pyset_add_in in H as [H| ->]; tauto.
Qed.

Lemma add_all_mem fs : forall s g,
  pyset_mem g s = true \/ In (fid g) (map fid fs) ->
  pyset_mem g (add_all fs s) = true.
Proof.
  induction fs as [|f fs IH]; intros s g H; simpl in *.
  - destruct H as [H|[]]. exact H.
  - apply IH. rewrite pyset_add_mem. unfold same_object.
    destruct H as [->|[E|H]]; [left; reflexivity | | right; exact H].
    left. rewrite E, Pos.eqb_refl. apply orb_true_r.
Qed.

(** The classification loop as a whole: opaque members of the list join
    [_builtin_functions], the others join [_traced_functions], both in list
    order; nothing else changes. *)
Lemma classify_fold fs : forall w,
  fold_left classify fs w
  = on_self (fun t =>
      set_builtin_functions
        (add_all (List.filter _is_builtin_function fs) (_builtin_functions t))
        (set_traced_functions
           (add_all (List.filter (fun f => negb (_is_builtin_function f)) fs)
                    (_traced_functions t)) t)) w.
Proof.
  induction fs as [|f fs IH]; intros w; simpl.
  - destruct w as [t h c m s o]; destruct t; reflexivity.
  - rewrite IH. unfold classify. destruct (_is_builtin_function f); reflexivity.
Qed.

Lemma filter_builtin_all fs :
  Forall (fun f => _is_builtin_function f = true)
         (List.filter _is_builtin_function fs).
Proof.
  apply List.Forall_forall. intros f H. apply filter_In in H. apply H.
Qed.

Lemma add_all_builtin fs :
  Forall (fun f => _is_builtin_function f = true)
         (add_all (List.filter _is_builtin_function fs) []).
Proof.
  apply List.Forall_forall. intros f H. apply add_all_in in H as [[]|H].
  apply filter_In in H. apply H.
Qed.

(** ** The substitution records along any program *)

Lemma records_inv_init mods tr : records_inv (Runtime_init mods tr).
Proof. repeat split; simpl; try constructor. intros f o H. apply elem_of_nil in H. tauto. Qed.

Lemma same_control_records w w' : same_control w w' -> records_inv w -> records_inv w'.
Proof.
  intros (E1 & _ & E3 & E4 & E5 & _) H. unfold records_inv.
  rewrite E1, E3, E4, E5. exact H.
Qed.

(** Wrapping from empty dictionaries over a duplicate-free target list. *)
Lemma setup_records w :
  _original_builtins (self w) = [] ->
  _wrapped_builtins (self w) = [] ->
  NoDup (map fid (_builtin_functions (self w))) ->
  map fst (_original_builtins (self (_setup_builtin_tracing w)))
    = _builtin_functions (self w) /\
  map fst (_wrapped_builtins (self (_setup_builtin_tracing w)))
    = _builtin_functions (self w) /\
  (forall func o,
     (func, o) ∈ _original_builtins (self (_setup_builtin_tracing w)) -> o = func).
Proof.
  intros Ho Hw Hnd. unfold _setup_builtin_tracing.
  set (w0 := set_cells (cells w ++ [None]) w).
  destruct (setup_fold_records (length (cells w)) (_builtin_functions (self w0)) w0)
    as (H1 & H2 & H3).
  - subst w0. simpl. rewrite Ho, Hw. reflexivity.
  - subst w0. simpl. rewrite Hw. exact Hnd.
  - subst w0. simpl. rewrite Ho. intros f o H. apply elem_of_nil in H. tauto.
  - subst w0. simpl in *. rewrite Ho in H1. rewrite Hw in H2.
    repeat split; assumption.
Qed.

Lemma records_inv_empty w :
  records_inv w -> _enabled (self w) = false ->
  _builtin_functions (self w) = [] /\
  _original_builtins (self w) = [] /\
  _wrapped_builtins (self w) = [].
Proof.
  intros (H1 & H2 & _ & _ & _ & H6) E. specialize (H6 E). rewrite H6 in H1, H2.
  repeat split; [exact H6 | |]; eapply map_eq_nil; eassumption.
Qed.

Lemma update_functions_records fs w :
  records_inv w -> records_inv (update_functions fs w).2.
Proof.
  intros H. unfold update_functions.
  destruct (_enabled (self w)) eqn:En; simpl; [|exact H].
  rewrite classify_fold.
  match goal with |- records_inv (_setup_builtin_tracing ?x) => set (w4 := x) end.
  assert (Hb : _builtin_functions (self w4)
               = add_all (List.filter _is_builtin_function fs) []) by reflexivity.
  assert (Ho : _original_builtins (self w4) = []).
  { reflexivity. }
  assert (Hw : _wrapped_builtins (self w4) = []).
  { reflexivity. }
  assert (He : _enabled (self w4) = true).
  { change (_enabled (self (_restore_builtin_functions w)) = true).
    rewrite restore_self. exact En. }
  assert (Hnd : NoDup (map fid (_builtin_functions (self w4)))).
  { rewrite Hb. apply add_all_fids. constructor. }
  destruct (setup_records w4 Ho Hw Hnd) as (K1 & K2 & K3).
  destruct (setup_frame w4) as (F & _).
  apply erase_records_fields in F. destruct F as (F1 & _ & _ & _ & _ & _ & F7).
  unfold records_inv. rewrite F7, F1, He. repeat split; try assumption.
  - rewrite Hb. apply add_all_builtin.
  - discriminate.
Qed.

Lemma enable_records functions w :
  records_inv w -> records_inv (enable functions w).2.
Proof.
  intros H. unfold enable. destruct (_enabled (self w)) eqn:En.
  - destruct functions; [apply update_functions_records, H | exact H].
  - destruct (records_inv_empty w H En) as (Hb0 & Ho0 & Hw0). cbn [snd].
    match goal with |- records_inv (on_self _ (_setup_builtin_tracing ?x)) =>
      set (w4 := x) end.
    assert (Hb : _builtin_functions (self w4)
                 = add_all (List.filter _is_builtin_function (default [] functions)) []
                 \/ _builtin_functions (self w4) = []).
    { subst w4. destruct (truthy functions); simpl.
      - left. rewrite classify_fold. simpl. rewrite Hb0. reflexivity.
      - right. exact Hb0. }
    assert (Ho : _original_builtins (self w4) = []).
    { subst w4. destruct (truthy functions); simpl; [rewrite classify_fold|]; exact Ho0. }
    assert (Hw : _wrapped_builtins (self w4) = []).
    { subst w4. destruct (truthy functions); simpl; [rewrite classify_fold|]; exact Hw0. }
    assert (Hnd : NoDup (map fid (_builtin_functions (self w4)))).
    { destruct Hb as [-> | ->]; [apply add_all_fids|]; constructor. }
    destruct (setup_records w4 Ho Hw Hnd) as (K1 & K2 & K3).
    destruct (setup_frame w4) as (F & _).
    apply erase_records_fields in F. destruct F as (_ & _ & _ & _ & _ & _ & F7).
    unfold records_inv. simpl. rewrite F7. repeat split; try assumption.
    + destruct Hb as [-> | ->]; [apply add_all_builtin | constructor].
    + discriminate.
Qed.

Lemma disable_records w : records_inv w -> records_inv (disable w).2.
Proof.
  intros H. unfold disable. destruct (_enabled (self w)); simpl; [|exact H].
  unfold records_inv. simpl.
  repeat split; try constructor. intros f o Hin. apply elem_of_nil in Hin. tauto.
Qed.

Lemma record_call_control func d w : same_control w (record_call func d w).
Proof.
  unfold record_call, stats_getitem.
  destruct (_stats (self w) !! fid func); repeat split.
Qed.

Lemma same_control_trans w1 w2 w3 :
  same_control w1 w2 -> same_control w2 w3 -> same_control w1 w3.
Proof. unfold same_control. intros H1 H2. repeat split; destruct H1, H2; intuition congruence. Qed.

Lemma trace_function_control fr ev now w :
  same_control w (_trace_function fr ev now w).2.
Proof.
  destruct ev; simpl; try (repeat split; reflexivity).
  - destruct (find_traced _ _); repeat split.
  - destruct (_call_stack (self w) !! frame_id fr) as [[func start]|];
      [|repeat split]. simpl.
    eapply same_control_trans; [|apply record_call_control]. repeat split.
Qed.

Lemma wrapped_function_control c call t0 t1 w :
  same_control w (wrapped_function c call t0 t1 w).2.
Proof.
  unfold wrapped_function.
  destruct (cells w !! c) as [[func|]|]; try (repeat split; reflexivity).
  destruct (_enabled (self w)); simpl; [|repeat split].
  destruct (call func); simpl; [apply record_call_control | repeat split].
Qed.

(** Trace events, calls through attributes or closures, attribute
    assignments by other code, reading results and decorating never touch
    the flag, the target sets, the records, the cells or the trace
    functions. *)
Lemma step_same_control w o : is_lifecycle o = false -> same_control w (step w o).
Proof.
  destruct o; simpl; try discriminate; intros _.
  - repeat split.
  - repeat split.
  - apply trace_function_control.
  - unfold call_attr. destruct (getattr m n w) as [[g|c wraps]|]; try (repeat split; reflexivity).
    apply wrapped_function_control.
  - apply wrapped_function_control.
  - destruct (import_setattr m n v w) eqn:E; [|repeat split].
    apply import_setattr_frame in E. destruct E as (E1 & _ & E3 & E4 & _).
    unfold same_control. rewrite E1, E3, E4. repeat split.
Qed.

Lemma step_records w o : records_inv w -> records_inv (step w o).
Proof.
  intros H. destruct (is_lifecycle o) eqn:L.
  - destruct o; try discriminate; simpl.
    + apply enable_records, H.
    + apply disable_records, H.
    + apply update_functions_records, H.
  - eapply same_control_records; [apply step_same_control, L | exact H].
Qed.

Lemma reachable_records_inv mods tr ops :
  records_inv (run ops (Runtime_init mods tr)).
Proof.
  unfold run.
  apply (fold_left_preserves records_inv step); [intros; apply step_records; assumption|].
  apply records_inv_init.
Qed.


(** ** The lifecycle methods *)

(** What [update_functions] leaves alone on an enabled or disabled tracer. *)
Lemma update_functions_fields fs w :
  let w' := (update_functions fs w).2 in
  _enabled (self w') = _enabled (self w) /\
  _decorated_functions (self w') = _decorated_functions (self w) /\
  _call_stack (self w') = _call_stack (self w) /\
  _original_trace_function (self w') = _original_trace_function (self w) /\
  sys_trace w' = sys_trace w.
Proof.
  cbv zeta. unfold update_functions.
  destruct (_enabled (self w)) eqn:En; cbn [negb snd]; [|repeat split; exact En].
  rewrite classify_fold.
  match goal with |- context [_setup_builtin_tracing ?x] => set (w4 := x) end.
  destruct (setup_frame w4) as (F & _ & Ft).
  apply erase_records_fields in F. destruct F as (F1 & _ & F3 & _ & F5 & F6 & _).
  rewrite F1, F3, F5, F6, Ft. clear F1 F3 F5 F6 Ft. subst w4.
  cbn [self on_self sys_trace _enabled _decorated_functions _call_stack
       _original_trace_function set_builtin_functions set_traced_functions].
  rewrite restore_self, restore_sys_trace. repeat split. exact En.
Qed.

Lemma update_functions_traced fs w :
  _enabled (self w) = true ->
  _traced_functions (self (update_functions fs w).2)
  = add_all (List.filter (fun f => negb (_is_builtin_function f)) fs)
            (_decorated_functions (self w)) /\
  _builtin_functions (self (update_functions fs w).2)
  = add_all (List.filter _is_builtin_function fs) [].
Proof.
  intros En. unfold update_functions. rewrite En. cbn [negb snd].
  rewrite classify_fold.
  match goal with |- context [_setup_builtin_tracing ?x] => set (w4 := x) end.
  destruct (setup_frame w4) as (F & _).
  apply erase_records_fields in F. destruct F as (_ & F2 & _ & _ & _ & _ & F7).
  rewrite F2, F7. subst w4.
  cbn [self on_self _traced_functions _builtin_functions _decorated_functions
       set_builtin_functions set_traced_functions].
  rewrite restore_self. split; reflexivity.
Qed.

Lemma enable_disabled_traced functions w :
  _enabled (self w) = false ->
  let fs := if truthy functions then default [] functions else [] in
  _traced_functions (self (enable functions w).2)
  = add_all (List.filter (fun f => negb (_is_builtin_function f)) fs)
            (_decorated_functions (self w)) /\
  _builtin_functions (self (enable functions w).2)
  = add_all (List.filter _is_builtin_function fs) (_builtin_functions (self w)) /\
  _decorated_functions (self (enable functions w).2) = _decorated_functions (self w) /\
  _call_stack (self (enable functions w).2) = _call_stack (self w) /\
  _original_trace_function (self (enable functions w).2) = sys_trace w /\
  sys_trace (enable functions w).2 = Some TracerHook.
Proof.
  intros En. unfold enable. rewrite En. cbn [snd].
  match goal with |- context [_setup_builtin_tracing ?x] => set (w4 := x) end.
  destruct (setup_frame w4) as (F & _ & Ft).
  apply erase_records_fields in F. destruct F as (_ & F2 & F3 & _ & F5 & F6 & F7).
  cbv zeta.
  cbn [self on_self sys_trace _traced_functions _builtin_functions
       _decorated_functions _call_stack _original_trace_function set_enabled].
  rewrite F2, F3, F5, F6, F7, Ft. subst w4.
  destruct (truthy functions); [rewrite classify_fold|]; repeat split.
Qed.

(** On the paths of this model [enable] returns normally and leaves the
    tracer enabled; [update_functions] returns normally exactly when the
    tracer is enabled. *)
Lemma enable_always_succeeds_aux (functions : option (list Callable)) (w : Runtime) :
  (enable functions w).1 = Ok tt /\
  _enabled (self (enable functions w).2) = true /\
  (forall fs, (update_functions fs w).1 = Ok tt <-> _enabled (self w) = true) /\
  (forall fs, _enabled (self (update_functions fs w).2) = _enabled (self w)).
Proof.
  assert (Hup : forall fs, (update_functions fs w).1 = Ok tt <-> _enabled (self w) = true).
  { intros fs. unfold update_functions. destruct (_enabled (self w)); simpl;
      split; congruence. }
  split; [|split; [|split; [exact Hup|]]].
  - unfold enable. destruct (_enabled (self w)) eqn:En; [|reflexivity].
    destruct functions; [apply Hup; reflexivity | reflexivity].
  - unfold enable. destruct (_enabled (self w)) eqn:En; [|reflexivity].
    destruct functions; [|exact En].
    destruct (update_functions_fields l w) as (E & _). rewrite E. exact En.
  - intros fs. apply (update_functions_fields fs w).
Qed.

(** A second [disable] in a row returns a dictionary with the same
    references as the first and changes nothing. *)
Theorem disable_twice (w : Runtime) :
  disable (disable w).2 = ((disable w).1, (disable w).2).
Proof.
  unfold disable at 1. rewrite disable_disabled. simpl.
  f_equal. rewrite disable_returns_store. exact (proj1 (disable_store w)).
Qed.

(** [disable] on an enabled tracer empties [_call_stack]: an activation
    that was in flight contributes nothing, its return event, should it
    still reach [_trace_function], changes nothing. *)
Theorem abandoned_activation_not_recorded (w : Runtime) (fr : frame) (now : Q) :
  _enabled (self w) = true ->
  _call_stack (self (disable w).2) = ∅ /\
  _trace_function fr Return now (disable w).2 = (None, (disable w).2).
Proof.
  intros En.
  assert (E : _call_stack (self (disable w).2) = ∅).
  { unfold disable. rewrite En. reflexivity. }
  split; [exact E|]. simpl. rewrite E, lookup_empty. reflexivity.
Qed.

Lemma abandoned_activation_not_recorded_witness :
  _call_stack (self fact_in_flight) !! 7%Z = Some (fact, 1%Q) /\
  _call_stack (self (disable fact_in_flight).2) = ∅ /\
  _trace_function (mkFrame 7 100) Return 3 (disable fact_in_flight).2
  = (None, (disable fact_in_flight).2).
Proof.
  split; [vm_compute; reflexivity|].
  apply (abandoned_activation_not_recorded fact_in_flight (mkFrame 7 100) 3).
  reflexivity.
Defined.

(** A closure obtained while tracing was on keeps working after [disable]:
    it runs the function in its cell and records nothing. *)
Theorem stale_closure_passes_through (w : Runtime) (c : nat) (func : Callable)
    (call : Callable -> result Z) (t0 t1 : Q) :
  cells w !! c = Some (Some func) ->
  wrapped_function c call t0 t1 (disable w).2 = (call func, (disable w).2).
Proof.
  intros Hc. unfold wrapped_function.
  assert (E : cells (disable w).2 = cells w).
  { unfold disable. destruct (_enabled (self w)); [|reflexivity]. simpl.
    apply (restore_fold_frame (_original_builtins (self w))
             (settrace (_original_trace_function (self w)) w)). }
  rewrite E, Hc, disable_disabled. reflexivity.
Qed.

Lemma stale_closure_passes_through_witness :
  cells (enable (Some [time_sleep]) fresh).2 !! 0 = Some (Some time_sleep) /\
  wrapped_function 0 returns_own_id 0 1 (disable (enable (Some [time_sleep]) fresh).2).2
  = (returns_own_id time_sleep, (disable (enable (Some [time_sleep]) fresh).2).2).
Proof.
  assert (H : cells (enable (Some [time_sleep]) fresh).2 !! 0 = Some (Some time_sleep))
    by (vm_compute; reflexivity).
  split; [exact H|].
  apply (stale_closure_passes_through _ 0 time_sleep returns_own_id 0 1 H).
Defined.

Lemma step_keeps_enabled w o :
  is_disable o = false -> _enabled (self w) = true ->
  _enabled (self (step w o)) = true /\
  _original_trace_function (self (step w o)) = _original_trace_function (self w) /\
  sys_trace (step w o) = sys_trace w.
Proof.
  intros Hd En. destruct (is_lifecycle o) eqn:L.
  - destruct o; try discriminate; simpl.
    + unfold enable. rewrite En. destruct functions; [|repeat split; exact En].
      destruct (update_functions_fields l w) as (E1 & _ & _ & E4 & E5).
      rewrite E1, E4, E5. repeat split. exact En.
    + destruct (update_functions_fields functions w) as (E1 & _ & _ & E4 & E5).
      rewrite E1, E4, E5. repeat split. exact En.
  - destruct (step_same_control w o L) as (E1 & _ & _ & _ & _ & E6 & E7 & _).
    rewrite E1, E6, E7. repeat split. exact En.
Qed.

Lemma run_keeps_enabled ops : forall w,
  forallb (fun o => negb (is_disable o)) ops = true ->
  _enabled (self w) = true ->
  _enabled (self (run ops w)) = true /\
  _original_trace_function (self (run ops w)) = _original_trace_function (self w) /\
  sys_trace (run ops w) = sys_trace w.
Proof.
  induction ops as [|o ops IH]; intros w Hall En; simpl in *; [repeat split; exact En|].
  apply andb_prop in Hall as [Ho Hall]. apply negb_true_iff in Ho.
  destruct (step_keeps_enabled w o Ho En) as (E1 & E2 & E3).
  destruct (IH (step w o) Hall E1) as (G1 & G2 & G3).
  rewrite G2, G3, E2, E3. repeat split. exact G1.
Qed.



(** ** Which functions are measured *)

Lemma find_traced_none code traced :
  Forall (fun f => __code__ f <> Some code) traced -> find_traced code traced = None.
Proof.
  unfold find_traced. induction 1 as [|f traced Hf _ IH]; simpl; [reflexivity|].
  destruct (__code__ f) as [c|]; [|exact IH].
  destruct (Pos.eqb_spec c code) as [->|_]; [congruence | exact IH].
Qed.

Lemma find_traced_some code traced func :
  find_traced code traced = Some func -> In func traced /\ __code__ func = Some code.
Proof.
  unfold find_traced. intros H. apply find_some in H as [Hin Hc].
  split; [exact Hin|]. destruct (__code__ func) as [c|]; [|discriminate].
  apply Pos.eqb_eq in Hc. congruence.
Qed.

(** A call and return of a frame whose code object belongs to no traced
    function leaves the runtime as it is. *)
Lemma untargeted_call_ignored w fr t0 t1 :
  Forall (fun f => __code__ f <> Some (f_code fr)) (_traced_functions (self w)) ->
  _call_stack (self w) !! frame_id fr = None ->
  _trace_function fr Call t0 w = (None, w) /\
  run_events [(fr, Call, t0); (fr, Return, t1)] w = w.
Proof.
  intros Hno Hfree.
  assert (E : _trace_function fr Call t0 w = (None, w)).
  { simpl. rewrite (find_traced_none _ _ Hno). reflexivity. }
  split; [exact E|].
  change (run_events [(fr, Call, t0); (fr, Return, t1)] w)
    with (_trace_function fr Return t1 (_trace_function fr Call t0 w).2).2.
  rewrite E. simpl. rewrite Hfree. reflexivity.
Qed.

Lemma enable_registers_targets_aux (fs : list Callable) (w : Runtime) :
  let w' := (enable (Some fs) w).2 in
  (forall f, pyset_mem f (_decorated_functions (self w)) = true ->
             pyset_mem f (_traced_functions (self w')) = true) /\
  (forall f, In f fs ->
     if _is_builtin_function f
     then pyset_mem f (_builtin_functions (self w')) = true
     else pyset_mem f (_traced_functions (self w')) = true) /\
  (forall g, In g (_traced_functions (self w')) ->
     In g (_decorated_functions (self w)) \/
     (In g fs /\ _is_builtin_function g = false)) /\
  _decorated_functions (self w') = _decorated_functions (self w) /\
  _call_stack (self w') = _call_stack (self w).
Proof.
  cbv zeta.
  assert (H : exists b0,
             _traced_functions (self (enable (Some fs) w).2)
             = add_all (List.filter (fun f => negb (_is_builtin_function f)) fs)
                       (_decorated_functions (self w)) /\
             _builtin_functions (self (enable (Some fs) w).2)
             = add_all (List.filter _is_builtin_function fs) b0 /\
             _decorated_functions (self (enable (Some fs) w).2)
             = _decorated_functions (self w) /\
             _call_stack (self (enable (Some fs) w).2) = _call_stack (self w)).
  { destruct (_enabled (self w)) eqn:En.
    - exists []. unfold enable. rewrite En.
      destruct (update_functions_traced fs w En) as [E1 E2].
      destruct (update_functions_fields fs w) as (_ & E3 & E4 & _).
      repeat split; assumption.
    - exists (_builtin_functions (self w)).
      destruct (enable_disabled_traced (Some fs) w En) as (E1 & E2 & E3 & E4 & _).
      rewrite E1, E2, E3, E4. destruct fs; repeat split. }
  destruct H as (b0 & E1 & E2 & E3 & E4). rewrite E1, E2, E3, E4.
  split; [|split; [|split; [|split; reflexivity]]].
  - intros f Hf. apply add_all_mem. left. exact Hf.
  - intros f Hin. destruct (_is_builtin_function f) eqn:B.
    + apply add_all_mem. right. apply in_map. apply filter_In. split; assumption.
    + apply add_all_mem. right. apply in_map. apply filter_In. rewrite B. split; [assumption|reflexivity].
  - intros g Hin. apply add_all_in in Hin as [Hin|Hin]; [left; exact Hin|].
    apply filter_In in Hin as [Hin B]. right. split; [exact Hin|].
    apply negb_true_iff, B.
Qed.

(** [enable(functions)] with a list, on an enabled or a disabled tracer,
    leaves every decorated function traced, registers every opaque member
    of the list (no [__code__], callable) as an opaque target and every
    other member as traced, and traces nothing else; membership is by
    object identity.  The decorated set and the call stack are not
    touched. *)
Theorem enable_registers_targets (fs : list Callable) (w : Runtime) :
  let w' := (enable (Some fs) w).2 in
  (forall f, pyset_mem f (_decorated_functions (self w)) = true ->
             pyset_mem f (_traced_functions (self w')) = true) /\
  (forall f, In f fs ->
     if _is_builtin_function f
     then pyset_mem f (_builtin_functions (self w')) = true
     else pyset_mem f (_traced_functions (self w')) = true) /\
  (forall g, In g (_traced_functions (self w')) ->
     In g (_decorated_functions (self w)) \/
     (In g fs /\ _is_builtin_function g = false)) /\
  _decorated_functions (self w') = _decorated_functions (self w) /\
  _call_stack (self w') = _call_stack (self w).
Proof. exact (enable_registers_targets_aux fs w). Qed.



(** ** The store over time *)

Lemma store_grows_refl w : store_grows w w.
Proof. split; [tauto|]. intros l s H. exists s. split; [exact H | lia]. Qed.

Lemma store_grows_trans w1 w2 w3 :
  store_grows w1 w2 -> store_grows w2 w3 -> store_grows w1 w3.
Proof.
  intros [K1 H1] [K2 H2]. split.
  - intros k l H. apply K2, K1, H.
  - intros l s H. destruct (H1 l s H) as (s' & Hs' & Hle).
    destruct (H2 l s' Hs') as (s'' & Hs'' & Hle'). exists s''. split; [exact Hs'' | lia].
Qed.

Lemma same_store_grows w w' : same_store w w' -> store_grows w w'.
Proof.
  intros [E1 E2]. unfold store_grows. rewrite E1, E2. apply store_grows_refl.
Qed.

Lemma record_call_grows func d w : store_grows w (record_call func d w).
Proof.
  unfold store_grows, record_call, stats_getitem.
  destruct (_stats (self w) !! fid func) as [l0|] eqn:E; simpl.
  - split; [tauto|]. intros l s H. rewrite list_lookup_alter.
    case_decide as Hl; [|exists s; split; [exact H | lia]].
    subst l0. rewrite H. simpl. eexists. split; [reflexivity|]. simpl. lia.
  - split.
    + intros k l H. rewrite lookup_insert_ne; [exact H|]. congruence.
    + intros l s H. rewrite alter_new_object. exists s. split; [|lia].
      apply lookup_app_l_Some, H.
Qed.

Lemma step_grows w o : store_grows w (step w o).
Proof.
  destruct o; simpl.
  - apply same_store_grows, enable_store.
  - apply same_store_grows, disable_store.
  - apply same_store_grows, update_functions_store.
  - apply store_grows_refl.
  - apply same_store_grows. split; reflexivity.
  - destruct ev; simpl; try apply store_grows_refl.
    + destruct (find_traced _ _); simpl; apply same_store_grows; split; reflexivity.
    + destruct (_call_stack (self w) !! frame_id fr) as [[func start]|];
        [|apply store_grows_refl]. simpl.
      eapply store_grows_trans; [|apply record_call_grows].
      apply same_store_grows. split; reflexivity.
  - unfold call_attr. destruct (getattr m n w) as [[g|c wraps]|]; try apply store_grows_refl.
    unfold wrapped_function. destruct (cells w !! c) as [[func|]|]; try apply store_grows_refl.
    destruct (_enabled (self w)); simpl; [|apply store_grows_refl].
    destruct (call func); simpl; [apply record_call_grows | apply store_grows_refl].
  - unfold wrapped_function. destruct (cells w !! c) as [[func|]|]; try apply store_grows_refl.
    destruct (_enabled (self w)); simpl; [|apply store_grows_refl].
    destruct (call func); simpl; [apply record_call_grows | apply store_grows_refl].
  - destruct (import_setattr m n v w) eqn:E; [|apply store_grows_refl].
    apply same_store_grows. eapply import_setattr_store, E.
Qed.

Lemma run_grows ops : forall w, store_grows w (run ops w).
Proof.
  induction ops as [|o ops IH]; intros w; simpl; [apply store_grows_refl|].
  eapply store_grows_trans; [apply step_grows | apply IH].
Qed.

(** Nothing a program does removes an entry or lowers a count: whatever
    [get_results] shows for a function now, after any further operations
    (including [disable], [enable] and [update_functions]) it still has an
    entry for that function with a [call_count] at least as large; and a
    dictionary returned earlier, read later, shows counts that have only
    grown. *)
Theorem entries_never_lost (ops : list op) (w : Runtime)
    (snap : gmap positive nat) (k : positive) (s : FunctionStats) :
  read_snapshot w snap !! k = Some s ->
  (exists s', read_snapshot (run ops w) snap !! k = Some s' /\
              (call_count s <= call_count s')%Z) /\
  (snap = get_results w ->
   exists s', read_snapshot (run ops w) (get_results (run ops w)) !! k = Some s' /\
              (call_count s <= call_count s')%Z).
Proof.
  unfold read_snapshot. rewrite !lookup_omap. intros H.
  destruct (snap !! k) as [l|] eqn:Ek; [|discriminate]. simpl in H.
  destruct (run_grows ops w) as [Hk Hh].
  destruct (Hh l s H) as (s' & Hs' & Hle).
  split.
  - exists s'. simpl. split; [exact Hs' | exact Hle].
  - intros ->. exists s'. unfold get_results in *.
    rewrite (Hk _ _ Ek). simpl. split; [exact Hs' | exact Hle].
Qed.

Lemma entries_never_lost_witness :
  read_snapshot mid_session (get_results mid_session) !! fid fact
  = Some (mkStats 1 2 (Fin 2) 2) /\
  (exists s', read_snapshot (run [OpDisable; OpEnable None] mid_session)
                (get_results mid_session) !! fid fact = Some s' /\
              (1 <= call_count s')%Z) /\
  (get_results mid_session = get_results mid_session ->
   exists s', read_snapshot (run [OpDisable; OpEnable None] mid_session)
                (get_results (run [OpDisable; OpEnable None] mid_session)) !! fid fact
              = Some s' /\
              (1 <= call_count s')%Z).
Proof.
  assert (H : read_snapshot mid_session (get_results mid_session) !! fid fact
              = Some (mkStats 1 2 (Fin 2) 2)) by (vm_compute; reflexivity).
  split; [exact H|].
  exact (entries_never_lost [OpDisable; OpEnable None] mid_session
           (get_results mid_session) (fid fact) (mkStats 1 2 (Fin 2) 2) H).
Defined.

(** ** Calls one after the other *)

Lemma sequential_events_run code func (acts : list activation) : forall w,
  find_traced code (_traced_functions (self w)) = Some func ->
  stats_wf w ->
  stats_wf (run_events (sequential_events code acts) w) /\
  _call_stack (self (run_events (sequential_events code acts) w))
    = foldr delete (_call_stack (self w)) (map act_frame acts) /\
  lookup_stats func (run_events (sequential_events code acts) w)
    = match acts with
      | [] => lookup_stats func w
      | _ => Some (fold_left (fun s a => update_stats (act_duration a) s) acts
                             (stats_or_new func w))
      end /\
  (forall g, fid g <> fid func ->
     lookup_stats g (run_events (sequential_events code acts) w) = lookup_stats g w).
Proof.
  induction acts as [|a later IH]; intros w Hfind Hwf.
  - simpl. repeat split; try reflexivity; apply Hwf.
  - cbn [sequential_events].
    rewrite run_events_cons, (deliver_call _ _ _ _ _ Hfind).
    set (w1 := on_self _ w).
    assert (Hpop : _call_stack (self w1) !! act_frame a = Some (func, act_enter a)).
    { subst w1. simpl. apply lookup_insert_eq. }
    rewrite run_events_cons, (deliver_return _ _ _ _ _ _ Hpop).
    set (w2 := on_self _ w1).
    assert (Hwf2 : stats_wf w2) by exact Hwf.
    set (w3 := record_call func (act_exit a - act_enter a) w2).
    assert (Hwf3 : stats_wf w3) by (apply record_call_wf, Hwf2).
    assert (Hfind3 : find_traced code (_traced_functions (self w3)) = Some func).
    { subst w3. rewrite record_call_self. exact Hfind. }
    destruct (IH w3 Hfind3 Hwf3) as (Hwf4 & Hcs & Hst & Hoth).
    assert (Hst3 : lookup_stats func w3
                   = Some (update_stats (act_duration a) (stats_or_new func w))).
    { subst w3. rewrite (record_call_lookup _ _ _ Hwf2). reflexivity. }
    split; [exact Hwf4|]. split; [|split].
    + rewrite Hcs. subst w3. rewrite record_call_self. subst w2 w1. simpl.
      rewrite delete_insert_eq, <- delete_foldr_delete. reflexivity.
    + rewrite Hst. destruct later as [|b later'].
      * rewrite Hst3. reflexivity.
      * unfold stats_or_new at 1. rewrite Hst3. reflexivity.
    + intros g Hne. rewrite Hoth by exact Hne. subst w3.
      rewrite (record_call_other _ _ _ Hwf2) by exact Hne. reflexivity.
Qed.

Lemma fold_left_update_stats_of (acts : list activation) :
  fold_left (fun s a => update_stats (act_duration a) s) acts FunctionStats0
  = stats_of (map act_duration acts).
Proof.
  unfold stats_of. generalize FunctionStats0.
  induction acts as [|a acts IH]; intros s; simpl; [reflexivity | apply IH].
Qed.



(** ** Wrapping and unwrapping as a round trip *)

Lemma import_setattr_imports m n v w w' m' :
  import_setattr m n v w = Ok w' ->
  is_Some (modules w' !! m') <-> is_Some (modules w !! m').
Proof.
  unfold import_setattr. destruct (modules w !! m) as [ns|] eqn:E; [|discriminate].
  intros [= <-]. simpl. destruct (decide (m = m')) as [->|Hne].
  - rewrite lookup_insert_eq, E. split; eauto.
  - rewrite lookup_insert_ne by done. reflexivity.
Qed.

Lemma import_setattr_ok m n v w :
  is_Some (modules w !! m) -> exists w', import_setattr m n v w = Ok w'.
Proof. intros [ns E]. unfold import_setattr. rewrite E. eauto. Qed.

Lemma bound_at_home_imports base f m n :
  bound_at_home base f -> located m n f -> is_Some (modules base !! m).
Proof.
  intros H [Hm Hn]. specialize (H m n Hm Hn). unfold getattr in H.
  destruct (modules base !! m); [eauto | discriminate].
Qed.

Lemma tracks_more_keys base keys keys' w :
  (forall f, In f keys -> In f keys') -> tracks base keys w -> tracks base keys' w.
Proof.
  intros Hsub (H1 & H2 & H3). repeat split; try apply H1; try exact H2.
  intros m n. destruct (H3 m n) as [E|(f & Hin & Hloc)]; [left; exact E|].
  right. exists f. split; [apply Hsub, Hin | exact Hloc].
Qed.

(** Assigning at the binding location of [f] keeps the runtime on track for
    any key list that contains [f]. *)
Lemma tracks_import_setattr base keys w w' f m n v :
  tracks base keys w -> In f keys -> located m n f ->
  import_setattr m n v w = Ok w' ->
  tracks base keys w'.
Proof.
  intros (H1 & H2 & H3) Hin Hloc E. repeat split.
  - rewrite (import_setattr_imports _ _ _ _ _ m0 E). apply H1.
  - rewrite <- (H1 m0). apply (import_setattr_imports _ _ _ _ _ m0 E).
  - destruct (import_setattr_frame _ _ _ _ _ E) as (_ & _ & _ & _ & Es). congruence.
  - intros m' n'. rewrite (getattr_import_setattr _ _ _ _ _ _ _ E).
    case_decide as Hd; [|apply H3].
    destruct Hd as [<- <-]. right. exists f. split; assumption.
Qed.

Lemma setup_one_tracks base c w func :
  map fst (_original_builtins (self w)) = map fst (_wrapped_builtins (self w)) ->
  tracks base (map fst (_original_builtins (self w))) w ->
  bound_at_home base func ->
  map fst (_original_builtins (self (setup_one c w func)))
    = map fst (_wrapped_builtins (self (setup_one c w func))) /\
  tracks base (map fst (_original_builtins (self (setup_one c w func))))
         (setup_one c w func).
Proof.
  intros Hsync Htr Hhome.
  destruct (pydict_mem func (_wrapped_builtins (self w))) eqn:Hw.
  - unfold setup_one. simpl. rewrite Hw. split; [exact Hsync | exact Htr].
  - assert (Ho : pydict_mem func (_original_builtins (self w)) = false).
    { rewrite pydict_mem_keys, Hsync, <- pydict_mem_keys. exact Hw. }
    pose proof (setup_one_self c w func Hw Ho) as Eself.
    rewrite Eself. simpl. rewrite !map_app, Hsync. split; [reflexivity|]. simpl.
    assert (Htr' : tracks base (map fst (_wrapped_builtins (self w)) ++ [func]) w).
    { apply (tracks_more_keys base (map fst (_original_builtins (self w))));
        [|exact Htr].
      intros f Hf. rewrite Hsync in Hf. apply in_or_app. left. exact Hf. }
    unfold setup_one. simpl. rewrite Hw.
    destruct (__module__ func) as [m|] eqn:Em, (__name__ func) as [n|] eqn:En;
      try exact Htr'.
    match goal with |- context [import_setattr ?m ?n ?v ?x] =>
      destruct (import_setattr_ok m n v x) as [w' E] end.
    { simpl. apply Htr'. eapply bound_at_home_imports; [exact Hhome | split; eassumption]. }
    rewrite E.
    eapply tracks_import_setattr; [| | split; eassumption | exact E].
    + exact Htr'.
    + apply in_or_app. right. left. reflexivity.
Qed.

Lemma setup_fold_tracks base c todo : forall w,
  map fst (_original_builtins (self w)) = map fst (_wrapped_builtins (self w)) ->
  tracks base (map fst (_original_builtins (self w))) w ->
  Forall (bound_at_home base) todo ->
  tracks base (map fst (_original_builtins (self (fold_left (setup_one c) todo w))))
         (fold_left (setup_one c) todo w).
Proof.
  induction todo as [|func todo IH]; intros w Hsync Htr Hall; simpl; [exact Htr|].
  apply Forall_cons in Hall as [Hhome Hall].
  destruct (setup_one_tracks base c w func Hsync Htr Hhome) as [Hsync' Htr'].
  apply IH; assumption.
Qed.

Lemma restore_fold_tracks base items : forall w,
  (forall f o, In (f, o) items -> o = f /\ bound_at_home base f) ->
  tracks base (map fst items) w ->
  tracks base [] (fold_left restore_one items w).
Proof.
  induction items as [|[f o] items IH]; intros w Hitems Htr; [exact Htr|].
  cbn [fold_left]. apply IH; [intros f' o' Hin; apply Hitems; right; exact Hin|].
  destruct (Hitems f o) as [-> Hhome]; [left; reflexivity|].
  assert (Hrest : forall m n, located m n f ->
            getattr m n (restore_one w (f, f)) = getattr m n base).
  { intros m n [Em En]. simpl. rewrite Em, En.
    destruct (import_setattr_ok m n (Function f) w) as [w' E].
    { apply Htr. eapply bound_at_home_imports; [exact Hhome | split; eassumption]. }
    rewrite E, (getattr_import_setattr _ _ _ _ _ _ _ E), decide_True by done.
    symmetry. apply Hhome; assumption. }
  assert (Hstep : tracks base (map fst ((f, f) :: items)) (restore_one w (f, f))).
  { simpl restore_one.
    destruct (__module__ f) as [m|] eqn:Em, (__name__ f) as [n|] eqn:En; try exact Htr.
    destruct (import_setattr_ok m n (Function f) w) as [w' E].
    { apply Htr. eapply bound_at_home_imports; [exact Hhome | split; eassumption]. }
    rewrite E. eapply tracks_import_setattr; [exact Htr | left; reflexivity | split; eassumption | exact E]. }
  destruct Hstep as (H1 & H2 & H3). repeat split; try apply H1; try exact H2.
  intros m n. destruct (H3 m n) as [E|(f' & [<-|Hin] & Hloc)].
  - left. exact E.
  - left. apply Hrest, Hloc.
  - right. exists f'. split; assumption.
Qed.

Lemma tracks_modules base w : tracks base [] w -> modules w = modules base /\ stdout w = stdout base.
Proof.
  intros (H1 & H2 & H3). split; [|exact H2].
  apply map_eq. intros m.
  destruct (modules w !! m) as [ns|] eqn:E, (modules base !! m) as [ns'|] eqn:E'.
  - f_equal. apply map_eq. intros n.
    destruct (H3 m n) as [G|(f & [] & _)]. unfold getattr in G.
    rewrite E, E' in G. exact G.
  - assert (X : is_Some (modules base !! m)) by (apply H1; rewrite E; eauto).
    rewrite E' in X. destruct X; discriminate.
  - assert (X : is_Some (modules w !! m)) by (apply H1; rewrite E'; eauto).
    rewrite E in X. destruct X; discriminate.
  - reflexivity.
Qed.



(** ** One opaque target *)



(** ** The name column of the report *)

Lemma length_append (a b : string) :
  String.length (a +:+ b) = String.length a + String.length b.
Proof. induction a as [|c a IH]; simpl; [reflexivity | rewrite IH; reflexivity]. Qed.

Lemma length_spaces k : String.length (spaces k) = k.
Proof. induction k as [|k IH]; simpl; [reflexivity | f_equal; exact IH]. Qed.

Lemma length_substring (s : string) : forall n m,
  n + m <= String.length s -> String.length (String.substring n m s) = m.
Proof.
  induction s as [|c s IH]; intros n m H; simpl in H.
  - assert (n = 0) by lia. assert (m = 0) by lia. subst. reflexivity.
  - destruct n as [|n]; simpl.
    + destruct m as [|m]; simpl; [reflexivity|]. rewrite IH by lia. reflexivity.
    + apply IH. lia.
Qed.

Lemma substring_to_end (s : string) : String.substring 0 (String.length s) s = s.
Proof. induction s as [|c s IH]; simpl; [reflexivity | rewrite IH; reflexivity]. Qed.

Lemma substring_suffix (s : string) : forall n,
  n <= String.length s ->
  exists p, String.length p = n /\ s = p +:+ String.substring n (String.length s - n) s.
Proof.
  induction s as [|c s IH]; intros n H; simpl in H.
  - assert (n = 0) by lia. subst. exists EmptyString. split; reflexivity.
  - destruct n as [|n].
    + exists EmptyString. split; [reflexivity|].
      change (String.length (String c s) - 0) with (String.length (String c s)).
      rewrite substring_to_end. reflexivity.
    + destruct (IH n) as (p & Hp & E); [lia|].
      exists (String c p). split; [simpl; rewrite Hp; reflexivity|].
      change (String c s = String c (p +:+ String.substring n (String.length s - n) s)).
      f_equal. exact E.
Qed.

(** Whatever the function, the name shown in a result line is at most 38
    characters long and its column is exactly 40 wide.  A name of up to 38
    characters is shown in full; a longer one is shown as three dots
    followed by its last 35 characters. *)
Theorem name_column_fits (str : Callable -> string) (func : Callable) :
  let name := display_name str func in
  let shown := truncate_name name in
  String.length shown <= 38 /\
  String.length (name_column str func) = 40 /\
  (String.length name <= 38 -> shown = name) /\
  (38 < String.length name ->
   exists p, name = p +:+ last_chars 35 name /\
             String.length (last_chars 35 name) = 35 /\
             shown = "..." +:+ last_chars 35 name /\
             String.length shown = 38).
Proof.
  intros name shown.
  assert (Hlong : 38 < String.length name ->
            exists p, name = p +:+ last_chars 35 name /\
                      String.length (last_chars 35 name) = 35 /\
                      shown = "..." +:+ last_chars 35 name /\
                      String.length shown = 38).
  { intros H. unfold shown, truncate_name.
    destruct (Nat.ltb_spec 38 (String.length name)) as [_|?]; [|lia].
    assert (H35 : String.length (last_chars 35 name) = 35).
    { unfold last_chars. apply length_substring. lia. }
    destruct (substring_suffix name (String.length name - 35)) as (p & _ & E); [lia|].
    exists p. split; [|split; [exact H35 | split; [reflexivity|]]].
    - unfold last_chars.
      replace 35 with (String.length name - (String.length name - 35)) at 2 by lia.
      exact E.
    - rewrite length_append, H35. reflexivity. }
  assert (Hshort : String.length name <= 38 -> shown = name).
  { intros H. unfold shown, truncate_name.
    destruct (Nat.ltb_spec 38 (String.length name)) as [?|_]; [lia | reflexivity]. }
  assert (Hlen : String.length shown <= 38).
  { destruct (Nat.le_gt_cases (String.length name) 38) as [H|H].
    - rewrite (Hshort H). exact H.
    - destruct (Hlong H) as (_ & _ & _ & _ & E). rewrite E. lia. }
  split; [exact Hlen|]. split; [|split; assumption].
  unfold name_column, ljust. fold name. fold shown.
  rewrite length_append, length_spaces. lia.
Qed.

(** ** A target whose module cannot be imported *)

Lemma enable_one_opaque_shape w fs func :
  _enabled (self w) = false ->
  records_inv w ->
  List.filter _is_builtin_function fs = [func] ->
  exists w4,
    modules w4 = modules w /\ stdout w4 = stdout w /\
    _wrapped_builtins (self w4) = [] /\ _original_builtins (self w4) = [] /\
    _original_trace_function (self w4) = sys_trace w /\
    (enable (Some fs) w).2
    = on_self (set_enabled true) (setup_one (length (cells w)) w4 func).
Proof.
  intros En Hinv Hone.
  destruct (records_inv_empty w Hinv En) as (Hb0 & Ho0 & Hw0).
  unfold enable. rewrite En. cbn [snd].
  assert (Ht : truthy (Some fs) = true) by (destruct fs; [discriminate | reflexivity]).
  rewrite Ht. change (default [] (Some fs)) with fs.
  rewrite classify_fold. unfold _setup_builtin_tracing.
  cbn [self on_self settrace set_cells cells _builtin_functions
       set_builtin_functions set_traced_functions set_original_trace_function].
  rewrite Hone, Hb0. cbn [add_all fold_left pyset_add pyset_mem existsb app].
  eexists. split; [|split; [|split; [|split; [|split; [|reflexivity]]]]];
    [reflexivity | reflexivity | exact Hw0 | exact Ho0 | reflexivity].
Qed.

Lemma setup_one_unimportable c w func m n :
  pydict_mem func (_wrapped_builtins (self w)) = false ->
  located m n func ->
  modules w !! m = None ->
  modules (setup_one c w func) = modules w /\
  stdout (setup_one c w func) = stdout w ++ [CouldNotWrap n ImportError].
Proof.
  intros Hw [Em En] Hmiss. unfold setup_one. simpl. rewrite Hw, Em, En.
  unfold import_setattr. simpl. rewrite Hmiss. simpl. split; reflexivity.
Qed.

Lemma restore_one_unimportable w func o m n :
  located m n func ->
  modules w !! m = None ->
  restore_one w (func, o) = print (CouldNotRestore n ImportError) w.
Proof.
  intros [Em En] Hmiss. simpl. rewrite Em, En.
  unfold import_setattr. rewrite Hmiss. reflexivity.
Qed.

(** When the only opaque target's module cannot be imported, [enable]
    still succeeds: it prints one "could not wrap" warning, keeps a record
    for the target and leaves the module attributes alone.  The following
    [disable] prints one "could not restore" warning and again changes no
    attribute. *)
Theorem unimportable_target_warns (w : Runtime) (fs : list Callable)
    (func : Callable) (m n : string) :
  _enabled (self w) = false ->
  records_inv w ->
  List.filter _is_builtin_function fs = [func] ->
  located m n func ->
  modules w !! m = None ->
  let w1 := (enable (Some fs) w).2 in
  (enable (Some fs) w).1 = Ok tt /\
  stdout w1 = stdout w ++ [CouldNotWrap n ImportError] /\
  modules w1 = modules w /\
  _original_builtins (self w1) = [(func, func)] /\
  stdout (disable w1).2
  = stdout w ++ [CouldNotWrap n ImportError; CouldNotRestore n ImportError] /\
  modules (disable w1).2 = modules w.
Proof.
  intros En Hinv Hone Hloc Hmiss w1.
  destruct (enable_one_opaque_shape w fs func En Hinv Hone)
    as (w4 & Hm4 & Hs4 & Hw4 & Ho4 & _ & E1).
  fold w1 in E1.
  assert (Hmem : pydict_mem func (_wrapped_builtins (self w4)) = false)
    by (rewrite Hw4; reflexivity).
  assert (Hmem' : pydict_mem func (_original_builtins (self w4)) = false)
    by (rewrite Ho4; reflexivity).
  destruct (setup_one_unimportable (length (cells w)) w4 func m n Hmem Hloc)
    as [Hm1 Hs1]; [rewrite Hm4; exact Hmiss|].
  pose proof (setup_one_self (length (cells w)) w4 func Hmem Hmem') as Eself.
  assert (Hmods : modules w1 = modules w) by (rewrite E1; simpl; congruence).
  assert (Hout : stdout w1 = stdout w ++ [CouldNotWrap n ImportError])
    by (rewrite E1; simpl; congruence).
  assert (Horig : _original_builtins (self w1) = [(func, func)]).
  { rewrite E1. cbn [self on_self]. rewrite Eself. simpl. rewrite Ho4. reflexivity. }
  assert (En1 : _enabled (self w1) = true) by apply enable_always_succeeds_aux.
  split; [apply enable_always_succeeds_aux|].
  split; [exact Hout|]. split; [exact Hmods|]. split; [exact Horig|].
  unfold disable. rewrite En1. cbn [negb snd].
  unfold _restore_builtin_functions. cbn [self settrace]. rewrite Horig.
  cbn [fold_left].
  rewrite (restore_one_unimportable _ func func m n Hloc)
    by (cbn [modules settrace]; rewrite Hmods; exact Hmiss).
  cbn [stdout modules on_self print settrace].
  rewrite Hout, Hmods, <- app_assoc. split; reflexivity.
Qed.

Lemma unimportable_target_warns_witness :
  let w1 := (enable (Some [fact; ghost_function]) fresh).2 in
  (enable (Some [fact; ghost_function]) fresh).1 = Ok tt /\
  stdout w1 = stdout fresh ++ [CouldNotWrap "run" ImportError] /\
  modules w1 = modules fresh /\
  _original_builtins (self w1) = [(ghost_function, ghost_function)] /\
  stdout (disable w1).2
  = stdout fresh ++ [CouldNotWrap "run" ImportError; CouldNotRestore "run" ImportError] /\
  modules (disable w1).2 = modules fresh.
Proof.
  apply (unimportable_target_warns fresh [fact; ghost_function] ghost_function "ghost" "run").
  - reflexivity.
  - apply records_inv_init.
  - reflexivity.
  - split; reflexivity.
  - vm_compute. reflexivity.
Defined.

(** ** Trace events delivered while a lifecycle method runs

    [enable] installs the hook before it wraps the opaque targets, and
    [update_functions] runs with the hook installed throughout, so the
    Python functions they call (such as [importlib.import_module]) raise
    trace events of their own.  [_trace_function] reads and writes only
    [_traced_functions], [_call_stack] and the store, which the wrapping
    and restoring loops never touch; such events are therefore delivered
    here right before or right after the method: before, when they occur
    while the old target set is in place, after, when the new one is. *)

Lemma deliver_is_step w e : deliver w e = step w (OpTrace e.1.1 e.1.2 e.2).
Proof. reflexivity. Qed.

Lemma run_events_grows evs : forall w, store_grows w (run_events evs w).
Proof.
  induction evs as [|e evs IH]; intros w; [apply store_grows_refl|].
  rewrite run_events_cons. eapply store_grows_trans; [|apply IH].
  rewrite deliver_is_step. apply step_grows.
Qed.

Lemma store_grows_read w w' k s :
  store_grows w w' ->
  read_snapshot w (get_results w) !! k = Some s ->
  exists s', read_snapshot w' (get_results w') !! k = Some s' /\
             (call_count s <= call_count s')%Z.
Proof.
  intros [Hk Hh]. unfold read_snapshot, get_results. rewrite !lookup_omap.
  destruct (_stats (self w) !! k) as [l|] eqn:Ek; [|discriminate]. simpl. intros H.
  destruct (Hh l s H) as (s' & Hs' & Hle).
  exists s'. rewrite (Hk _ _ Ek). simpl. split; assumption.
Qed.

(** Events of frames that belong to no traced function and have no pending
    entry leave the runtime as it is. *)
Lemma run_events_ignored evs : forall w,
  no_target_among evs w -> not_pending evs w -> run_events evs w = w.
Proof.
  induction evs as [|[[fr ev] now] evs IH]; intros w Hno Hfree; [reflexivity|].
  apply Forall_cons in Hno as [Hn Hno]. apply Forall_cons in Hfree as [Hf Hfree].
  rewrite run_events_cons.
  assert (E : deliver w (fr, ev, now) = w).
  { unfold deliver. simpl in *. destruct ev; simpl; try reflexivity.
    - rewrite Hn. reflexivity.
    - rewrite Hf. reflexivity. }
  rewrite E. apply IH; assumption.
Qed.

Lemma not_pending_empty evs w : _call_stack (self w) = ∅ -> not_pending evs w.
Proof.
  intros E. unfold not_pending. rewrite E.
  apply List.Forall_forall. intros e _. apply lookup_empty.
Qed.




